(** * Inventory simulator: the day loop of [run_simulation] and the policy
      formulas of [main.py], embedded and verified.

    Numbers.  Python [int]s that stay integers ([days], [lead_time],
    [avg_daily_demand], [demand_std], the drawn [demand], the stockout
    counter, the delivery countdown) are [Z].  Quantities that may hold a
    float ([inventory], [on_order], [reorder_point], [order_quantity]) are
    exact rationals [Q], compared by value as Python compares numbers; the
    rounding of binary floating point is not modelled.  The reorder-point
    formula needs a square root and the normal quantile, and lives in [R]. *)

From Stdlib Require Import ZArith QArith List Bool Lia Lqa.
From Stdlib Require Import Reals Qreals Lra Epsilon Classical_Prop.
Import ListNotations.

Local Open Scope Z_scope.

(** ** The random source

    [random.randint(a, b)] reads the shared generator, advances it, and
    returns an integer of the closed range [a..b]; on an empty range it
    raises [ValueError].  The generator is an arbitrary sequence of raw
    integers with a read position, so that every outcome of every draw is
    the outcome under some generator. *)

Module Rng.

Record t : Type := mk { entropy : nat -> Z; cursor : nat }.

Definition raw (g : t) : Z := entropy g (cursor g).

Definition advance (g : t) : t := mk (entropy g) (S (cursor g)).

Definition randint (a b : Z) (g : t) : option (Z * t) :=
  if a <=? b then Some (a + raw g mod (b - a + 1), advance g) else None.

(** A generator that replays a fixed list of raw values, then zeros. *)
Definition of_list (l : list Z) : t := mk (fun i => nth i l 0) 0.

(** A generator whose every raw value is [z]. *)
Definition const (z : Z) : t := mk (fun _ => z) 0.

End Rng.

(** ** Computations that read the random source and may raise *)

Definition M (A : Type) : Type := Rng.t -> option (A * Rng.t).

Definition ret {A} (a : A) : M A := fun g => Some (a, g).

Definition bind {A B} (m : M A) (k : A -> M B) : M B :=
  fun g => match m g with
           | Some (a, g') => k a g'
           | None => None
           end.

Notation "x <- m ;; k" := (bind m (fun x => k))
  (at level 61, m at next level, right associativity).

(** ** The simulation engine *)

(** The two module-level names [run_simulation] reads without receiving them
    as arguments. *)
Record globals : Type := Globals {
  avg_daily_demand : Z;
  demand_std : Z
}.

(** The local variables of [run_simulation] that live across iterations. *)
Record state : Type := State {
  inventory : Q;
  on_order : Q;
  days_until_delivery : Z;
  stockouts : Z;
  inventory_levels : list Q
}.

Definition demand_low (G : globals) : Z :=
  Z.max 1 (avg_daily_demand G - 2 * demand_std G).

Definition demand_high (G : globals) : Z :=
  avg_daily_demand G + 2 * demand_std G.

(** [demand = random.randint(max(1, avg - 2*std), avg + 2*std)] *)
Definition draw_demand (G : globals) : M Z :=
  Rng.randint (demand_low G) (demand_high G).

(** [if days_until_delivery == 1: inventory += on_order; on_order = 0] *)
Definition delivery_check (s : state) : state :=
  if days_until_delivery s =? 1
  then State (inventory s + on_order s) 0 (days_until_delivery s)
             (stockouts s) (inventory_levels s)
  else s.

(** [if inventory >= demand: inventory -= demand
     else: stockouts += 1; inventory = 0] *)
Definition fulfil (demand : Z) (s : state) : state :=
  if Qle_bool (inject_Z demand) (inventory s)
  then State (inventory s - inject_Z demand) (on_order s)
             (days_until_delivery s) (stockouts s) (inventory_levels s)
  else State 0 (on_order s) (days_until_delivery s)
             (stockouts s + 1) (inventory_levels s).

(** The guard of the reorder branch: [inventory <= reorder_point and on_order == 0]. *)
Definition places_order (reorder_point : Q) (s : state) : bool :=
  Qle_bool (inventory s) reorder_point && Qeq_bool (on_order s) 0.

(** [if inventory <= reorder_point and on_order == 0:
        on_order = order_quantity; days_until_delivery = lead_time
     elif days_until_delivery > 0: days_until_delivery -= 1] *)
Definition reorder (reorder_point order_quantity : Q) (lead_time : Z)
    (s : state) : state :=
  if places_order reorder_point s
  then State (inventory s) order_quantity lead_time
             (stockouts s) (inventory_levels s)
  else if 0 <? days_until_delivery s
  then State (inventory s) (on_order s) (days_until_delivery s - 1)
             (stockouts s) (inventory_levels s)
  else s.

(** [inventory_levels.append(inventory)] *)
Definition record (s : state) : state :=
  State (inventory s) (on_order s) (days_until_delivery s) (stockouts s)
        (inventory_levels s ++ [inventory s]).

(** What one iteration does to the state once the demand is known. *)
Definition day (reorder_point order_quantity : Q) (lead_time : Z)
    (demand : Z) (s : state) : state :=
  record (reorder reorder_point order_quantity lead_time
            (fulfil demand (delivery_check s))).

(** One iteration of the [for] loop, in the order of the source: the demand
    is drawn first, then the delivery check runs. *)
Definition loop_body (G : globals) (reorder_point order_quantity : Q)
    (lead_time : Z) (s : state) : M state :=
  demand <- draw_demand G ;;
  let s1 := delivery_check s in
  let s2 := fulfil demand s1 in
  let s3 := reorder reorder_point order_quantity lead_time s2 in
  ret (record s3).

(** [n] iterations of the loop. *)
Fixpoint loop (G : globals) (reorder_point order_quantity : Q)
    (lead_time : Z) (n : nat) (s : state) : M state :=
  match n with
  | O => ret s
  | S n' =>
      s' <- loop_body G reorder_point order_quantity lead_time s ;;
      loop G reorder_point order_quantity lead_time n' s'
  end.

Definition initial_state (initial_stock : Z) : state :=
  State (inject_Z initial_stock) 0 0 0 [].

(** [range(days)] is empty for [days <= 0]. *)
Definition run_simulation (G : globals) (days initial_stock : Z)
    (reorder_point order_quantity : Q) (lead_time : Z) : M (list Q * Z) :=
  s <- loop G reorder_point order_quantity lead_time (Z.to_nat days)
         (initial_state initial_stock) ;;
  ret (inventory_levels s, stockouts s).

(** ** The reference transition

    The per-day transition as the specification words it, step by step:
    1. delivery check, 2. demand draw, 3. demand fulfilment, 4. reorder
    decision, 5. record. *)

Definition reference_day (G : globals) (reorder_point order_quantity : Q)
    (lead_time : Z) (s : state) : M state :=
  s1 <- ret (delivery_check s) ;;
  demand <- draw_demand G ;;
  s2 <- ret (fulfil demand s1) ;;
  s3 <- ret (reorder reorder_point order_quantity lead_time s2) ;;
  ret (record s3).

Fixpoint reference_loop (G : globals) (reorder_point order_quantity : Q)
    (lead_time : Z) (n : nat) (s : state) : M state :=
  match n with
  | O => ret s
  | S n' =>
      s' <- reference_day G reorder_point order_quantity lead_time s ;;
      reference_loop G reorder_point order_quantity lead_time n' s'
  end.

Definition reference_simulation (G : globals) (days initial_stock : Z)
    (reorder_point order_quantity : Q) (lead_time : Z) : M (list Q * Z) :=
  s <- reference_loop G reorder_point order_quantity lead_time (Z.to_nat days)
         (initial_state initial_stock) ;;
  ret (inventory_levels s, stockouts s).

(** ** Predicates used by the statements *)

(** The state at the start of day [k] (days are numbered from 0, as by
    [range(days)]), i.e. after [k] full iterations from the initial state. *)
Definition state_at (G : globals) (initial_stock : Z)
    (reorder_point order_quantity : Q) (lead_time : Z) (k : nat) : M state :=
  loop G reorder_point order_quantity lead_time k (initial_state initial_stock).

(** An outstanding order has a running countdown. *)
Definition order_tracked (s : state) : Prop :=
  ~ on_order s == 0 -> 0 < days_until_delivery s.

(** The delivery check fires on a day that starts in state [s]. *)
Definition delivers (s : state) : bool := days_until_delivery s =? 1.

(** A rational number that is an integer. *)
Definition is_integer (q : Q) : Prop := exists z : Z, q == inject_Z z.

(** After the delivery check an order still outstanding is at least two
    steps of the countdown away. *)
Definition order_pending (s : state) : Prop :=
  ~ on_order s == 0 -> 1 < days_until_delivery s.

(** The value a computation returns, the random source left aside. *)
Definition result {A} (m : M A) (g : Rng.t) : option A :=
  match m g with
  | Some (a, _) => Some a
  | None => None
  end.

(** * The policy formulas

    [calculate_eoq] and [calculate_reorder_point] compute on floats with
    [np.sqrt] and [scipy.stats.norm.ppf]; here they are functions of real
    numbers, with the real square root and the quantile function of the
    standard normal distribution. *)

Section PolicyDefinitions.

Local Open Scope R_scope.

(** ** The standard normal distribution

    Its density is proportional to [exp (- t^2 / 2)].  The distribution
    function is the area under the density left of [x], over the whole
    area; the quantile function [norm.ppf] is its inverse on (0, 1). *)

Definition gauss (t : R) : R := exp (- (t * t / 2)).

Lemma gauss_pos t : 0 < gauss t.
Proof. apply exp_pos. Qed.

Lemma gauss_le_1 t : gauss t <= 1.
Proof.
  unfold gauss. rewrite <- exp_0.
  destruct (Req_dec t 0) as [->|Hn].
  - right. f_equal. lra.
  - left. apply exp_increasing. nra.
Qed.

Lemma gauss_even t : gauss (- t) = gauss t.
Proof. unfold gauss. f_equal. lra. Qed.

(** The density is continuous, hence integrable over every interval. *)
Lemma gauss_continuity : continuity gauss.
Proof.
  unfold gauss.
  apply derivable_continuous. unfold derivable. intros x. reg.
Qed.

Lemma gauss_integrable a b : Riemann_integrable gauss a b.
Proof.
  destruct (Rle_dec a b) as [H|H].
  - apply continuity_implies_RiemannInt; [exact H|].
    intros x _. apply gauss_continuity.
  - apply RiemannInt_P1, continuity_implies_RiemannInt; [lra|].
    intros x _. apply gauss_continuity.
Qed.

(** The area under [gauss] between 0 and [x], negative when [x < 0]. *)
Definition gauss_area (x : R) : R := RiemannInt (gauss_integrable 0 x).

Lemma gauss_area_0 : gauss_area 0 = 0.
Proof. apply RiemannInt_P9. Qed.

Lemma gauss_area_diff x y :
  gauss_area y - gauss_area x = RiemannInt (gauss_integrable x y).
Proof.
  unfold gauss_area.
  rewrite <- (RiemannInt_P26 (gauss_integrable 0 x) (gauss_integrable x y)
                (gauss_integrable 0 y)).
  ring.
Qed.

Lemma gauss_slice_lower x y m :
  x <= y -> (forall t, x < t < y -> m <= gauss t) ->
  m * (y - x) <= RiemannInt (gauss_integrable x y).
Proof.
  intros Hxy Hm.
  rewrite <- (RiemannInt_P15 (RiemannInt_P14 x y m)).
  apply RiemannInt_P19; [exact Hxy|]. intros t Ht. apply Hm, Ht.
Qed.

Lemma gauss_slice_upper x y m :
  x <= y -> (forall t, x < t < y -> gauss t <= m) ->
  RiemannInt (gauss_integrable x y) <= m * (y - x).
Proof.
  intros Hxy Hm.
  rewrite <- (RiemannInt_P15 (RiemannInt_P14 x y m)).
  apply RiemannInt_P19; [exact Hxy|]. intros t Ht. apply Hm, Ht.
Qed.

(** The density falls as [|t|] grows. *)
Lemma gauss_antitone s t : Rabs s <= Rabs t -> gauss t <= gauss s.
Proof.
  intros H. unfold gauss.
  assert (Hsq : s * s <= t * t).
  { assert (Es : s * s = Rabs s * Rabs s)
      by (unfold Rabs; destruct (Rcase_abs s); ring).
    assert (Et : t * t = Rabs t * Rabs t)
      by (unfold Rabs; destruct (Rcase_abs t); ring).
    rewrite Es, Et. pose proof (Rabs_pos s). nra. }
  destruct (Req_dec (s * s) (t * t)) as [E|E].
  - right. f_equal. lra.
  - left. apply exp_increasing. lra.
Qed.

Lemma gauss_area_increasing x y : x < y -> gauss_area x < gauss_area y.
Proof.
  intros Hxy.
  set (M := Rmax (Rabs x) (Rabs y)).
  assert (Hm : forall t, x < t < y -> gauss M <= gauss t).
  { intros t Ht. apply gauss_antitone.
    unfold M. rewrite (Rabs_pos_eq (Rmax _ _)).
    - unfold Rabs, Rmax. repeat destruct (Rcase_abs _); destruct (Rle_dec _ _); lra.
    - pose proof (Rabs_pos x). pose proof (Rmax_l (Rabs x) (Rabs y)). lra. }
  pose proof (gauss_slice_lower x y (gauss M) (Rlt_le _ _ Hxy) Hm) as H.
  rewrite <- gauss_area_diff in H.
  pose proof (gauss_pos M). nra.
Qed.

(** The area stays below 5: over [[n, n + 1]] the density is at most
    [2 / (2 + n^2)]. *)

Lemma gauss_le_rational t : gauss t <= 2 / (2 + t * t).
Proof.
  unfold gauss. rewrite exp_Ropp.
  replace (2 / (2 + t * t)) with (/ (1 + t * t / 2)) by (field; nra).
  apply Rinv_le_contravar; [nra|].
  destruct (Req_dec (t * t / 2) 0) as [E|E].
  - rewrite E, exp_0. lra.
  - left. now apply exp_ineq1.
Qed.

Lemma gauss_area_nat (n : nat) : gauss_area (INR n) <= 5 - 5 / (INR n + 1).
Proof.
  induction n as [|n IH].
  - simpl. rewrite gauss_area_0. lra.
  - rewrite S_INR. pose proof (pos_INR n) as Hn. set (x := INR n) in *.
    assert (Hstep : gauss_area (x + 1) - gauss_area x <= gauss x * (x + 1 - x)).
    { rewrite gauss_area_diff. apply gauss_slice_upper; [lra|].
      intros t Ht. apply gauss_antitone. rewrite !Rabs_pos_eq; lra. }
    pose proof (gauss_le_rational x) as Hg.
    assert (Hr : 2 / (2 + x * x) <= 5 / (x + 1) - 5 / (x + 1 + 1)).
    { assert (Hq : 0 < 5 / (x + 1) - 5 / (x + 1 + 1) - 2 / (2 + x * x)); [|lra].
      replace (5 / (x + 1) - 5 / (x + 1 + 1) - 2 / (2 + x * x))
        with ((3 * (x - 1) * (x - 1) + 3) / ((2 + x * x) * ((x + 1) * (x + 2))))
        by (field; repeat split; nra).
      apply Rdiv_lt_0_compat; [nra|].
      apply Rmult_lt_0_compat; [nra|]. apply Rmult_lt_0_compat; lra. }
    lra.
Qed.

Lemma gauss_area_bounded x : gauss_area x < 5.
Proof.
  destruct (Rle_dec x 0) as [Hx|Hx].
  - destruct Hx as [Hx | ->].
    + pose proof (gauss_area_increasing x 0 Hx). rewrite gauss_area_0 in H. lra.
    + rewrite gauss_area_0. lra.
  - destruct (archimed x) as [Hup _].
    assert (Hz : (0 <= up x)%Z).
    { apply le_IZR. lra. }
    pose proof (gauss_area_nat (Z.to_nat (up x))) as Hb.
    rewrite INR_IZR_INZ, Z2Nat.id in Hb by exact Hz.
    pose proof (gauss_area_increasing x (IZR (up x)) Hup).
    assert (0 < 5 / (IZR (up x) + 1)).
    { apply Rdiv_lt_0_compat; lra. }
    lra.
Qed.

(** The areas [gauss_area x], over all [x]. *)
Definition gauss_areas (m : R) : Prop := exists x, m = gauss_area x.

Lemma gauss_areas_bound : bound gauss_areas.
Proof.
  exists 5. intros m [x ->]. left. apply gauss_area_bounded.
Qed.

Lemma gauss_areas_inhabited : exists m, gauss_areas m.
Proof. exists (gauss_area 0), 0. reflexivity. Qed.

(** The area under [gauss] right of 0 (half of the whole area, the density
    being even): the least upper bound of the areas. *)
Definition half_mass : R :=
  proj1_sig (completeness gauss_areas gauss_areas_bound gauss_areas_inhabited).

(** [norm.cdf]: the mass left of [x]. *)
Definition norm_cdf (x : R) : R := 1 / 2 + gauss_area x / (2 * half_mass).

(** [norm.ppf]: the point left of which the mass is [p].  There is exactly
    one for [0 < p < 1] ([norm_cdf_onto], [norm_cdf_injective] below);
    elsewhere [norm.ppf] returns an infinity or a NaN and the value here
    carries no meaning. *)
Definition norm_ppf (p : R) : R :=
  epsilon (inhabits 0) (fun x => norm_cdf x = p).

(** ** The two formulas *)

(** [return np.sqrt((2 * demand * order_cost) / holding_cost)] *)
Definition calculate_eoq (demand order_cost holding_cost : R) : R :=
  sqrt ((2 * demand * order_cost) / holding_cost).

(** [z_score = norm.ppf(service_level)
     safety_stock = z_score * demand_std * np.sqrt(lead_time)
     return (avg_daily * lead_time) + safety_stock] *)
Definition calculate_reorder_point
    (avg_daily lead_time service_level demand_std : R) : R :=
  let z_score := norm_ppf service_level in
  let safety_stock := z_score * demand_std * sqrt lead_time in
  (avg_daily * lead_time) + safety_stock.

End PolicyDefinitions.

(** * Properties of the engine *)

(** ** The monad and the random source *)

Lemma bind_Some {A B} (m : M A) (k : A -> M B) g b g2 :
  bind m k g = Some (b, g2) <->
  exists a g1, m g = Some (a, g1) /\ k a g1 = Some (b, g2).
Proof.
  unfold bind. split.
  - destruct (m g) as [[a g1]|]; [|discriminate].
    intros H. now exists a, g1.
  - intros (a & g1 & -> & H). exact H.
Qed.

Lemma bind_None {A B} (m : M A) (k : A -> M B) g :
  bind m k g = None <->
  m g = None \/ exists a g1, m g = Some (a, g1) /\ k a g1 = None.
Proof.
  unfold bind. split.
  - destruct (m g) as [[a g1]|]; [|now left].
    intros H. right. now exists a, g1.
  - intros [-> | (a & g1 & -> & H)]; [reflexivity | exact H].
Qed.

Lemma randint_Some a b g :
  a <= b -> Rng.randint a b g = Some (a + Rng.raw g mod (b - a + 1), Rng.advance g).
Proof.
  intros H. unfold Rng.randint.
  destruct (Z.leb_spec a b); [reflexivity | lia].
Qed.

Lemma randint_None a b g : b < a -> Rng.randint a b g = None.
Proof.
  intros H. unfold Rng.randint.
  destruct (Z.leb_spec a b); [lia | reflexivity].
Qed.

Lemma randint_range a b g d g' :
  Rng.randint a b g = Some (d, g') -> a <= d <= b.
Proof.
  unfold Rng.randint. destruct (Z.leb_spec a b) as [Hab|Hab]; [|discriminate].
  intros [= <- _].
  pose proof (Z.mod_pos_bound (Rng.raw g) (b - a + 1)). lia.
Qed.

(** Every value of a non-empty range is the outcome of the draw under some
    generator. *)
Lemma randint_onto a b d :
  a <= d <= b -> exists g g', Rng.randint a b g = Some (d, g').
Proof.
  intros H. exists (Rng.const (d - a)). eexists.
  rewrite randint_Some by lia. unfold Rng.raw; simpl.
  rewrite Z.mod_small by lia. do 2 f_equal. lia.
Qed.

(** ** One iteration *)

Section Engine.

Variable G : globals.
Variables reorder_point order_quantity : Q.
Variable lead_time : Z.

Local Abbreviation body := (loop_body G reorder_point order_quantity lead_time).
Local Abbreviation run_loop := (loop G reorder_point order_quantity lead_time).
Local Abbreviation one_day := (day reorder_point order_quantity lead_time).

Lemma loop_body_day s :
  body s = (demand <- draw_demand G ;; ret (one_day demand s)).
Proof. reflexivity. Qed.

Lemma loop_body_Some s g s' g' :
  body s g = Some (s', g') <->
  exists demand, draw_demand G g = Some (demand, g') /\ s' = one_day demand s.
Proof.
  rewrite loop_body_day, bind_Some. split.
  - intros (d & g1 & Hd & Hr). unfold ret in Hr. injection Hr as <- <-.
    now exists d.
  - intros (d & Hd & ->). now exists d, g'.
Qed.

Lemma loop_body_total s g :
  demand_low G <= demand_high G -> exists s' g', body s g = Some (s', g').
Proof.
  intros H. rewrite loop_body_day. unfold bind, draw_demand.
  rewrite randint_Some by exact H. now eexists _, _.
Qed.

Lemma loop_body_raises s g :
  demand_high G < demand_low G -> body s g = None.
Proof.
  intros H. rewrite loop_body_day. unfold bind, draw_demand.
  now rewrite randint_None.
Qed.

(** The fields after one iteration. *)

Lemma inventory_day d s :
  inventory (one_day d s) = inventory (fulfil d (delivery_check s)).
Proof.
  unfold day, record, reorder.
  destruct (places_order _ _); [reflexivity|].
  destruct (0 <? _); reflexivity.
Qed.

Lemma stockouts_day d s :
  stockouts (one_day d s) = stockouts (fulfil d (delivery_check s)).
Proof.
  unfold day, record, reorder.
  destruct (places_order _ _); [reflexivity|].
  destruct (0 <? _); reflexivity.
Qed.

Lemma stockouts_delivery_check s : stockouts (delivery_check s) = stockouts s.
Proof. unfold delivery_check. destruct (_ =? 1); reflexivity. Qed.

Lemma levels_delivery_check s :
  inventory_levels (delivery_check s) = inventory_levels s.
Proof. unfold delivery_check. destruct (_ =? 1); reflexivity. Qed.

Lemma levels_fulfil d s : inventory_levels (fulfil d s) = inventory_levels s.
Proof. unfold fulfil. destruct (Qle_bool _ _); reflexivity. Qed.

Lemma levels_reorder s :
  inventory_levels (reorder reorder_point order_quantity lead_time s)
  = inventory_levels s.
Proof.
  unfold reorder. destruct (places_order _ _); [reflexivity|].
  destruct (0 <? _); reflexivity.
Qed.

Lemma levels_day d s :
  inventory_levels (one_day d s) = inventory_levels s ++ [inventory (one_day d s)].
Proof.
  unfold day at 1. unfold record at 1. cbn [inventory_levels].
  rewrite levels_reorder, levels_fulfil, levels_delivery_check.
  reflexivity.
Qed.

Lemma stockouts_fulfil d s :
  stockouts (fulfil d s) = stockouts s \/ stockouts (fulfil d s) = stockouts s + 1.
Proof. unfold fulfil. destruct (Qle_bool _ _); cbn; auto. Qed.

Lemma stockouts_day_step d s :
  stockouts s <= stockouts (one_day d s) <= stockouts s + 1.
Proof.
  rewrite stockouts_day.
  destruct (stockouts_fulfil d (delivery_check s)) as [-> | ->];
    rewrite stockouts_delivery_check; lia.
Qed.

(** ** Many iterations *)

Lemma loop_S_Some n s g s' g' :
  run_loop (S n) s g = Some (s', g') <->
  exists s1 g1, body s g = Some (s1, g1) /\ run_loop n s1 g1 = Some (s', g').
Proof. cbn [loop]. apply bind_Some. Qed.

Lemma loop_add n m s :
  forall g, run_loop (n + m) s g = (s1 <- run_loop n s ;; run_loop m s1) g.
Proof.
  revert s. induction n as [|n IH]; intros s g.
  - reflexivity.
  - cbn [Nat.add loop]. unfold bind.
    destruct (body s g) as [[s1 g1]|]; [|reflexivity].
    rewrite IH. reflexivity.
Qed.

(** The last iteration of a run, split off. *)
Lemma loop_snoc_Some n s g s' g' :
  run_loop (S n) s g = Some (s', g') <->
  exists s1 g1, run_loop n s g = Some (s1, g1) /\ body s1 g1 = Some (s', g').
Proof.
  replace (S n) with (n + 1)%nat by lia. rewrite loop_add, bind_Some.
  split; intros (s1 & g1 & H1 & H2); exists s1, g1; split; try exact H1.
  - cbn [loop] in H2. apply bind_Some in H2.
    destruct H2 as (s2 & g2 & H2 & H3). unfold ret in H3. now injection H3 as <- <-.
  - cbn [loop]. apply bind_Some. now exists s', g'.
Qed.

Lemma loop_total n :
  demand_low G <= demand_high G ->
  forall s g, exists s' g', run_loop n s g = Some (s', g').
Proof.
  intros H. induction n as [|n IH]; intros s g.
  - now exists s, g.
  - destruct (loop_body_total s g H) as (s1 & g1 & H1).
    destruct (IH s1 g1) as (s' & g' & H2).
    exists s', g'. apply loop_S_Some. now exists s1, g1.
Qed.

Lemma loop_raises n s g :
  demand_high G < demand_low G -> run_loop (S n) s g = None.
Proof.
  intros H. cbn [loop]. apply bind_None. left. now apply loop_body_raises.
Qed.

(** A run that reaches day [n + m] has passed day [n]. *)
Lemma loop_prefix n m s g s' g' :
  run_loop (n + m) s g = Some (s', g') ->
  exists s1 g1, run_loop n s g = Some (s1, g1) /\ run_loop m s1 g1 = Some (s', g').
Proof. rewrite loop_add. apply bind_Some. Qed.

Lemma loop_length n :
  forall s g s' g', run_loop n s g = Some (s', g') ->
  length (inventory_levels s') = (length (inventory_levels s) + n)%nat.
Proof.
  induction n as [|n IH]; intros s g s' g' H.
  - injection H as <- _. lia.
  - apply loop_S_Some in H. destruct H as (s1 & g1 & Hb & Hl).
    apply loop_body_Some in Hb. destruct Hb as (d & _ & ->).
    rewrite (IH _ _ _ _ Hl), levels_day, length_app. simpl. lia.
Qed.

Lemma loop_stockouts n :
  forall s g s' g', run_loop n s g = Some (s', g') ->
  stockouts s <= stockouts s' <= stockouts s + Z.of_nat n.
Proof.
  induction n as [|n IH]; intros s g s' g' H.
  - injection H as <- _. lia.
  - apply loop_S_Some in H. destruct H as (s1 & g1 & Hb & Hl).
    apply loop_body_Some in Hb. destruct Hb as (d & _ & ->).
    pose proof (IH _ _ _ _ Hl). pose proof (stockouts_day_step d s). lia.
Qed.

(** The trajectory only grows: what day [n] recorded is still there later. *)
Lemma loop_levels_prefix n :
  forall s g s' g', run_loop n s g = Some (s', g') ->
  exists l, inventory_levels s' = inventory_levels s ++ l.
Proof.
  induction n as [|n IH]; intros s g s' g' H.
  - injection H as <- _. exists []. now rewrite app_nil_r.
  - apply loop_S_Some in H. destruct H as (s1 & g1 & Hb & Hl).
    apply loop_body_Some in Hb. destruct Hb as (d & _ & ->).
    destruct (IH _ _ _ _ Hl) as (l & ->). rewrite levels_day.
    eexists. rewrite <- app_assoc. reflexivity.
Qed.

End Engine.

(** ** Horizon and stockout count *)

(** C3.  A run over [days >= 0] days that returns gives a trajectory of
    exactly [days] entries and a stockout count between 0 and [days]. *)
Theorem run_simulation_length_and_count
    (G : globals) (days initial_stock : Z) (reorder_point order_quantity : Q)
    (lead_time : Z) (g g' : Rng.t) (levels : list Q) (count : Z) :
  0 <= days ->
  run_simulation G days initial_stock reorder_point order_quantity lead_time g
    = Some ((levels, count), g') ->
  Z.of_nat (length levels) = days /\ 0 <= count <= days.
Proof.
  intros Hdays H. unfold run_simulation in H. apply bind_Some in H.
  destruct H as (s & g1 & Hloop & Hret). unfold ret in Hret.
  injection Hret as <- <- _.
  pose proof (loop_length _ _ _ _ _ _ _ _ _ Hloop) as Hlen.
  pose proof (loop_stockouts _ _ _ _ _ _ _ _ _ Hloop) as Hcnt.
  cbn in Hlen, Hcnt. lia.
Qed.

Lemma run_simulation_length_and_count_witness :
  Z.of_nat (length [70%Q; 40%Q; 10%Q; 0%Q]) = 4 /\ 0 <= 1 <= 4.
Proof.
  apply (run_simulation_length_and_count (Globals 50 10) 4 100 20 0 7
           (Rng.const 0) (Rng.mk (fun _ => 0) 4)).
  - lia.
  - reflexivity.
Defined.

(** ** The demand generator *)

(** C7.  Whatever the state of the random source, a draw either yields an
    integer [d] with [max(1, avg - 2*std) <= d <= avg + 2*std], hence
    [d >= 1], or raises, and it raises only on an empty range. *)
Theorem draw_demand_bounds (G : globals) (g : Rng.t) :
  match draw_demand G g with
  | Some (d, _) =>
      Z.max 1 (avg_daily_demand G - 2 * demand_std G) <= d
        <= avg_daily_demand G + 2 * demand_std G
      /\ 1 <= d
  | None =>
      avg_daily_demand G + 2 * demand_std G
        < Z.max 1 (avg_daily_demand G - 2 * demand_std G)
  end.
Proof.
  unfold draw_demand. destruct (Rng.randint _ _ g) as [[d g']|] eqn:E.
  - apply randint_range in E. unfold demand_low, demand_high in E. lia.
  - unfold Rng.randint, demand_low, demand_high in E.
    destruct (Z.leb_spec (Z.max 1 (avg_daily_demand G - 2 * demand_std G))
                (avg_daily_demand G + 2 * demand_std G)); [discriminate | lia].
Qed.

(** ** Order of the steps *)

Lemma loop_body_reference G reorder_point order_quantity lead_time s g :
  loop_body G reorder_point order_quantity lead_time s g
  = reference_day G reorder_point order_quantity lead_time s g.
Proof.
  unfold loop_body, reference_day, bind, ret.
  destruct (draw_demand G g) as [[d g1]|]; reflexivity.
Qed.

Lemma loop_reference G reorder_point order_quantity lead_time n :
  forall s g,
    loop G reorder_point order_quantity lead_time n s g
    = reference_loop G reorder_point order_quantity lead_time n s g.
Proof.
  induction n as [|n IH]; intros s g; [reflexivity|].
  cbn [loop reference_loop]. unfold bind.
  rewrite loop_body_reference.
  destruct (reference_day _ _ _ _ s g) as [[s1 g1]|]; [apply IH | reflexivity].
Qed.

(** C6.  The loop of the source, which draws the demand before the delivery
    check, and the reference transition, which checks the delivery first,
    return the same trajectory and stockout count, leave the random source
    in the same state, and raise on the same inputs. *)
Theorem run_simulation_matches_reference
    (G : globals) (days initial_stock : Z) (reorder_point order_quantity : Q)
    (lead_time : Z) (g : Rng.t) :
  run_simulation G days initial_stock reorder_point order_quantity lead_time g
  = reference_simulation G days initial_stock reorder_point order_quantity
      lead_time g.
Proof.
  unfold run_simulation, reference_simulation, bind.
  rewrite loop_reference. reflexivity.
Qed.

(** ** Totality *)

Lemma demand_range_nonempty (G : globals) :
  1 <= avg_daily_demand G -> 0 <= demand_std G ->
  demand_low G <= demand_high G.
Proof. unfold demand_low, demand_high. lia. Qed.

(** On a horizon of at least one day the run raises exactly when the range
    of the draw is empty. *)
Lemma run_simulation_raises_iff
    (G : globals) (days initial_stock : Z) (reorder_point order_quantity : Q)
    (lead_time : Z) (g : Rng.t) :
  0 < days ->
  run_simulation G days initial_stock reorder_point order_quantity lead_time g
    = None
  <-> demand_high G < demand_low G.
Proof.
  intros Hdays. split.
  - intros Hnone. apply Z.nle_gt. intros Hrange.
    destruct (loop_total G reorder_point order_quantity lead_time
                (Z.to_nat days) Hrange (initial_state initial_stock) g)
      as (s & g' & Hloop).
    unfold run_simulation, bind in Hnone. rewrite Hloop in Hnone. discriminate.
  - intros Hempty. unfold run_simulation, bind.
    destruct (Z.to_nat days) as [|n] eqn:E; [lia|].
    now rewrite loop_raises.
Qed.

(** C4, as the claim states it, fails: with an average demand and a spread
    of 0 the range of the draw is [1..0], and the first day raises. *)
Lemma run_simulation_raises_on_empty_range :
  run_simulation (Globals 0 0) 1 100 20 10 1 (Rng.const 0) = None.
Proof. reflexivity. Qed.

(** C4, amended.  When the range of the draw is not empty,
    [max(1, avg - 2*std) <= avg + 2*std], the run executes the whole horizon
    and returns, whatever the other inputs and the random source. *)
Theorem run_simulation_total
    (G : globals) (days initial_stock : Z) (reorder_point order_quantity : Q)
    (lead_time : Z) (g : Rng.t) :
  Z.max 1 (avg_daily_demand G - 2 * demand_std G)
    <= avg_daily_demand G + 2 * demand_std G ->
  exists levels count g',
    run_simulation G days initial_stock reorder_point order_quantity lead_time g
      = Some ((levels, count), g')
    /\ length levels = Z.to_nat days.
Proof.
  intros H.
  destruct (loop_total G reorder_point order_quantity lead_time (Z.to_nat days)
              H (initial_state initial_stock) g) as (s & g' & Hloop).
  exists (inventory_levels s), (stockouts s), g'. split.
  - unfold run_simulation, bind. rewrite Hloop. reflexivity.
  - now rewrite (loop_length _ _ _ _ _ _ _ _ _ Hloop).
Qed.

Lemma run_simulation_total_witness :
  exists levels count g',
    run_simulation (Globals 50 10) 365 500 393 632 7 (Rng.const 17)
      = Some ((levels, count), g')
    /\ length levels = Z.to_nat 365.
Proof.
  apply (run_simulation_total (Globals 50 10) 365 500 393 632 7 (Rng.const 17)).
  simpl. lia.
Defined.

(** ** Degenerate policy: nothing in stock, nothing ordered *)

Lemma Qle_bool_true_le (x y : Q) : Qle_bool x y = true -> (x <= y)%Q.
Proof. apply Qle_bool_iff. Qed.

Lemma inject_Z_pos_not_le_0 (d : Z) : 1 <= d -> Qle_bool (inject_Z d) 0 = false.
Proof.
  intros H. destruct (Qle_bool (inject_Z d) 0) eqn:E; [|reflexivity].
  apply Qle_bool_iff in E. unfold Qle in E. simpl in E. lia.
Qed.

(** With empty stock and an order quantity of 0, a day of positive demand is
    a stockout and leaves stock and order at 0. *)
Lemma day_empty_handed reorder_point lead_time d dud n l :
  1 <= d ->
  exists dud',
    day reorder_point 0 lead_time d (State 0 0 dud n l)
    = State 0 0 dud' (n + 1) (l ++ [0%Q]).
Proof.
  intros Hd. unfold day, delivery_check. cbn [days_until_delivery].
  assert (Hf : forall dd, fulfil d (State 0 0 dd n l) = State 0 0 dd (n + 1) l).
  { intros dd. unfold fulfil. cbn [inventory].
    now rewrite (inject_Z_pos_not_le_0 d Hd). }
  assert (Hs : (if dud =? 1
                then State (inventory (State 0 0 dud n l) + on_order (State 0 0 dud n l))
                       0 dud n l
                else State 0 0 dud n l) = State 0 0 dud n l).
  { destruct (dud =? 1); reflexivity. }
  cbn [inventory on_order stockouts inventory_levels] in *.
  rewrite Hs, Hf. unfold reorder.
  destruct (places_order reorder_point (State 0 0 dud (n + 1) l)).
  - now exists lead_time.
  - cbn [days_until_delivery]. destruct (0 <? dud).
    + now exists (dud - 1).
    + now exists dud.
Qed.

Lemma loop_empty_handed G reorder_point lead_time :
  demand_low G <= demand_high G ->
  forall k dud n l g, exists dud' g',
    loop G reorder_point 0 lead_time k (State 0 0 dud n l) g
    = Some (State 0 0 dud' (n + Z.of_nat k) (l ++ repeat 0%Q k), g').
Proof.
  intros HG. induction k as [|k IH]; intros dud n l g.
  - exists dud, g. cbn. now rewrite Z.add_0_r, app_nil_r.
  - cbn [loop]. unfold bind. rewrite loop_body_day. unfold bind, draw_demand.
    rewrite randint_Some by exact HG. unfold ret.
    set (d := demand_low G + Rng.raw g mod (demand_high G - demand_low G + 1)).
    assert (Hd : 1 <= d).
    { pose proof (Z.mod_pos_bound (Rng.raw g) (demand_high G - demand_low G + 1)).
      unfold d, demand_low in *. lia. }
    destruct (day_empty_handed reorder_point lead_time d dud n l Hd) as (dud1 & ->).
    destruct (IH dud1 (n + 1) (l ++ [0%Q]) (Rng.advance g)) as (dud' & g' & ->).
    exists dud', g'. rewrite <- app_assoc, Nat2Z.inj_succ.
    replace (n + 1 + Z.of_nat k) with (n + Z.succ (Z.of_nat k)) by lia.
    reflexivity.
Qed.

(** C8.  With [initial_stock = 0], [order_quantity = 0] and [days = 5], and
    a non-empty range for the draw, the run returns: the trajectory is five
    zeros and the stockout count is 5, whatever the random source. *)
Theorem run_simulation_all_stockouts
    (G : globals) (reorder_point : Q) (lead_time : Z) (g : Rng.t) :
  Z.max 1 (avg_daily_demand G - 2 * demand_std G)
    <= avg_daily_demand G + 2 * demand_std G ->
  result (run_simulation G 5 0 reorder_point 0 lead_time) g
  = Some ([0%Q; 0%Q; 0%Q; 0%Q; 0%Q], 5).
Proof.
  intros HG. unfold result, run_simulation, bind.
  destruct (loop_empty_handed G reorder_point lead_time HG 5 0 0 [] g)
    as (dud' & g' & H).
  change (Z.to_nat 5) with 5%nat. unfold initial_state.
  change (inject_Z 0) with 0%Q. rewrite H. reflexivity.
Qed.

Lemma run_simulation_all_stockouts_witness :
  result (run_simulation (Globals 50 10) 5 0 393 0 7) (Rng.const 12)
  = Some ([0%Q; 0%Q; 0%Q; 0%Q; 0%Q], 5).
Proof.
  apply (run_simulation_all_stockouts (Globals 50 10) 393 7 (Rng.const 12)).
  simpl. lia.
Defined.

(** ** Stockout days record an empty stock *)

Lemma fulfil_stockout d s :
  stockouts (fulfil d s) = stockouts s + 1 -> inventory (fulfil d s) = 0%Q.
Proof.
  unfold fulfil. destruct (Qle_bool _ _); cbn; [lia | reflexivity].
Qed.

Lemma day_stockout reorder_point order_quantity lead_time d s :
  stockouts (day reorder_point order_quantity lead_time d s) = stockouts s + 1 ->
  inventory (day reorder_point order_quantity lead_time d s) = 0%Q.
Proof.
  rewrite stockouts_day, inventory_day.
  rewrite <- (stockouts_delivery_check s). apply fulfil_stockout.
Qed.

(** C10.  If day [k] of a run records a stockout (the counter after the day
    is one more than before it), the trajectory entry of day [k] is 0. *)
Theorem stockout_day_records_zero
    (G : globals) (days initial_stock : Z) (reorder_point order_quantity : Q)
    (lead_time : Z) (g g' gk gk' : Rng.t) (levels : list Q) (count : Z)
    (k : nat) (before after : state) :
  run_simulation G days initial_stock reorder_point order_quantity lead_time g
    = Some ((levels, count), g') ->
  (k < Z.to_nat days)%nat ->
  state_at G initial_stock reorder_point order_quantity lead_time k g
    = Some (before, gk) ->
  state_at G initial_stock reorder_point order_quantity lead_time (S k) g
    = Some (after, gk') ->
  stockouts after = stockouts before + 1 ->
  nth_error levels k = Some 0%Q.
Proof.
  unfold state_at. intros Hrun Hk Hbefore Hafter Hinc.
  pose proof Hafter as Hreach.
  apply loop_snoc_Some in Hafter.
  destruct Hafter as (s1 & g1 & Hs1 & Hbody).
  rewrite Hbefore in Hs1. injection Hs1 as <- <-.
  apply loop_body_Some in Hbody. destruct Hbody as (d & _ & Hday).
  (* the entry of day k *)
  pose proof (loop_length _ _ _ _ _ _ _ _ _ Hbefore) as Hlen. cbn in Hlen.
  assert (Hafter_levels : inventory_levels after = inventory_levels before ++ [0%Q]).
  { rewrite Hday, levels_day. f_equal. f_equal.
    apply day_stockout. now rewrite <- Hday. }
  (* the rest of the run keeps it *)
  unfold run_simulation in Hrun. apply bind_Some in Hrun.
  destruct Hrun as (s & g2 & Hloop & Hret). unfold ret in Hret.
  injection Hret as <- _ _.
  replace (Z.to_nat days) with (S k + (Z.to_nat days - S k))%nat in Hloop by lia.
  apply loop_prefix in Hloop. destruct Hloop as (s2 & g3 & Hpre & Hpost).
  rewrite Hreach in Hpre. injection Hpre as <- <-.
  destruct (loop_levels_prefix _ _ _ _ _ _ _ _ _ Hpost) as (l & ->).
  rewrite Hafter_levels, <- app_assoc, nth_error_app2 by lia.
  rewrite Hlen, Nat.sub_diag. reflexivity.
Qed.

Lemma stockout_day_records_zero_witness :
  nth_error [70%Q; 40%Q; 10%Q; 0%Q] 3 = Some 0%Q.
Proof.
  eapply (stockout_day_records_zero (Globals 50 10) 4 100 20 0 7 (Rng.const 0)).
  - reflexivity.
  - simpl. lia.
  - reflexivity.
  - reflexivity.
  - reflexivity.
Defined.

(** ** A single outstanding order *)

Lemma Qeq_bool_false_neq (x y : Q) : ~ x == y -> Qeq_bool x y = false.
Proof.
  intros H. destruct (Qeq_bool x y) eqn:E; [|reflexivity].
  apply Qeq_bool_iff in E. contradiction.
Qed.

Lemma places_order_needs_no_order reorder_point s :
  ~ on_order s == 0 -> places_order reorder_point s = false.
Proof.
  intros H. unfold places_order.
  rewrite (Qeq_bool_false_neq _ _ H). apply andb_false_r.
Qed.

Lemma tracked_initial initial_stock : order_tracked (initial_state initial_stock).
Proof. intros H. exfalso. apply H. reflexivity. Qed.

Lemma pending_delivery_check s : order_tracked s -> order_pending (delivery_check s).
Proof.
  unfold order_tracked, order_pending, delivery_check. intros H.
  destruct (Z.eqb_spec (days_until_delivery s) 1) as [E|E]; cbn.
  - intros H0. exfalso. apply H0. reflexivity.
  - intros H0. specialize (H H0). lia.
Qed.

Lemma pending_fulfil d s : order_pending s -> order_pending (fulfil d s).
Proof.
  unfold order_pending, fulfil. destruct (Qle_bool _ _); cbn; auto.
Qed.

Lemma pending_tracked s : order_pending s -> order_tracked s.
Proof. unfold order_pending, order_tracked. intros H H0. specialize (H H0). lia. Qed.

Lemma tracked_reorder reorder_point order_quantity lead_time s :
  1 <= lead_time -> order_pending s ->
  order_tracked (reorder reorder_point order_quantity lead_time s).
Proof.
  unfold order_pending, order_tracked, reorder. intros HL H.
  destruct (places_order reorder_point s); cbn; [lia|].
  destruct (Z.ltb_spec 0 (days_until_delivery s)) as [Hd|Hd]; cbn; intros Ho;
    specialize (H Ho); lia.
Qed.

Lemma tracked_record s : order_tracked s -> order_tracked (record s).
Proof. unfold order_tracked, record. cbn. auto. Qed.

Lemma tracked_day reorder_point order_quantity lead_time d s :
  1 <= lead_time -> order_tracked s ->
  order_tracked (day reorder_point order_quantity lead_time d s).
Proof.
  intros HL H. unfold day. apply tracked_record, tracked_reorder; [exact HL|].
  apply pending_fulfil, pending_delivery_check, H.
Qed.

Lemma tracked_loop G reorder_point order_quantity lead_time n :
  1 <= lead_time ->
  forall s g s' g',
    order_tracked s ->
    loop G reorder_point order_quantity lead_time n s g = Some (s', g') ->
    order_tracked s'.
Proof.
  intros HL. induction n as [|n IH]; intros s g s' g' Hs H.
  - now injection H as <- _.
  - apply loop_S_Some in H. destruct H as (s1 & g1 & Hb & Hl).
    apply loop_body_Some in Hb. destruct Hb as (d & _ & ->).
    eapply IH; [|exact Hl]. now apply tracked_day.
Qed.

(** C2.  In a run with [lead_time >= 1], at the start of every day and
    after each step of the day, an order that is outstanding
    ([on_order != 0]) has a positive countdown; and the reorder step places
    no order while one is outstanding. *)
Theorem single_outstanding_order
    (G : globals) (days initial_stock : Z) (reorder_point order_quantity : Q)
    (lead_time : Z) (g g' : Rng.t) (res : list Q * Z) (k : nat) :
  1 <= lead_time ->
  run_simulation G days initial_stock reorder_point order_quantity lead_time g
    = Some (res, g') ->
  (k <= Z.to_nat days)%nat ->
  exists s gk,
    state_at G initial_stock reorder_point order_quantity lead_time k g
      = Some (s, gk)
    /\ order_tracked s
    /\ forall demand : Z,
         let s1 := delivery_check s in
         let s2 := fulfil demand s1 in
         order_tracked s1 /\ order_tracked s2
         /\ (~ on_order s2 == 0 -> places_order reorder_point s2 = false)
         /\ order_tracked (reorder reorder_point order_quantity lead_time s2).
Proof.
  intros HL Hrun Hk. unfold run_simulation in Hrun. apply bind_Some in Hrun.
  destruct Hrun as (sN & gN & Hloop & _).
  replace (Z.to_nat days) with (k + (Z.to_nat days - k))%nat in Hloop by lia.
  apply loop_prefix in Hloop. destruct Hloop as (s & gk & Hk1 & _).
  exists s, gk. split; [exact Hk1|].
  assert (Hs : order_tracked s).
  { eapply tracked_loop; [exact HL | apply tracked_initial | exact Hk1]. }
  split; [exact Hs|]. intros demand s1 s2.
  assert (H1 : order_pending s1) by now apply pending_delivery_check.
  assert (H2 : order_pending s2) by now apply pending_fulfil.
  repeat split.
  - now apply pending_tracked.
  - now apply pending_tracked.
  - apply places_order_needs_no_order.
  - now apply tracked_reorder.
Qed.

Lemma single_outstanding_order_witness :
  exists s gk,
    state_at (Globals 50 10) 100 393 632 7 3 (Rng.const 0) = Some (s, gk)
    /\ order_tracked s
    /\ forall demand : Z,
         let s1 := delivery_check s in
         let s2 := fulfil demand s1 in
         order_tracked s1 /\ order_tracked s2
         /\ (~ on_order s2 == 0 -> places_order 393 s2 = false)
         /\ order_tracked (reorder 393 632 7 s2).
Proof.
  eapply (single_outstanding_order (Globals 50 10) 30 100 393 632 7 (Rng.const 0)).
  - lia.
  - reflexivity.
  - simpl. lia.
Defined.

(** ** Lead time: the day an order arrives *)

(** The day an order is placed ends with the order outstanding and the
    countdown at [lead_time]. *)
Lemma day_places reorder_point order_quantity lead_time d s :
  places_order reorder_point (fulfil d (delivery_check s)) = true ->
  on_order (day reorder_point order_quantity lead_time d s) = order_quantity
  /\ days_until_delivery (day reorder_point order_quantity lead_time d s)
     = lead_time.
Proof.
  intros H. unfold day, reorder. rewrite H. split; reflexivity.
Qed.

(** A day that starts with an order outstanding and a countdown above 1
    delivers nothing, keeps the order and takes one off the countdown. *)
Lemma day_counts_down reorder_point order_quantity lead_time d s :
  ~ on_order s == 0 -> 1 < days_until_delivery s ->
  delivers s = false
  /\ on_order (day reorder_point order_quantity lead_time d s) = on_order s
  /\ days_until_delivery (day reorder_point order_quantity lead_time d s)
     = days_until_delivery s - 1.
Proof.
  intros Ho Hd.
  assert (E : delivery_check s = s).
  { unfold delivery_check. destruct (Z.eqb_spec (days_until_delivery s) 1); [lia|reflexivity]. }
  split.
  - unfold delivers. destruct (Z.eqb_spec (days_until_delivery s) 1); [lia|reflexivity].
  - unfold day. rewrite E.
    assert (Ho2 : on_order (fulfil d s) = on_order s)
      by (unfold fulfil; destruct (Qle_bool _ _); reflexivity).
    assert (Hd2 : days_until_delivery (fulfil d s) = days_until_delivery s)
      by (unfold fulfil; destruct (Qle_bool _ _); reflexivity).
    unfold reorder. rewrite places_order_needs_no_order by (rewrite Ho2; exact Ho).
    rewrite Hd2. destruct (Z.ltb_spec 0 (days_until_delivery s)); [|lia].
    unfold record. cbn [on_order days_until_delivery].
    rewrite Ho2. split; reflexivity.
Qed.

(** A day that starts with the countdown at 1 receives the order. *)
Lemma delivery_check_delivers s :
  days_until_delivery s = 1 ->
  delivers s = true
  /\ inventory (delivery_check s) = (inventory s + on_order s)%Q
  /\ on_order (delivery_check s) = 0%Q.
Proof.
  intros H. unfold delivers, delivery_check. rewrite H. cbn. repeat split.
Qed.

(** C1, as the claim states it, fails.  Stock 0, reorder point 0, order
    quantity 10, lead time 3, a demand of 1 every day: day 0 places the
    order (countdown 3); day 2 starts with the countdown at 2, so its
    delivery check does not fire and it ends with stock 0 and the 10 units
    still on order; the order arrives on day 3. *)
Lemma order_not_delivered_two_days_later :
  let at_day k := result (state_at (Globals 1 0) 0 0 10 3 k) (Rng.const 0) in
  at_day 1%nat = Some (State 0 10 3 1 [0%Q])
  /\ at_day 2%nat = Some (State 0 10 2 2 [0%Q; 0%Q])
  /\ delivers (State 0 10 2 2 [0%Q; 0%Q]) = false
  /\ at_day 3%nat = Some (State 0 10 1 3 [0%Q; 0%Q; 0%Q])
  /\ delivers (State 0 10 1 3 [0%Q; 0%Q; 0%Q]) = true
  /\ at_day 4%nat = Some (State 9 0 0 3 [0%Q; 0%Q; 0%Q; 9%Q]).
Proof. cbv zeta. repeat split. Qed.

(** C1, amended.  With [lead_time = 3] and [order_quantity > 0], an order
    placed by the reorder step of day [d] is delivered by neither day [d+1]
    nor day [d+2], both of which end with the order still outstanding; it is
    delivered by the delivery check of day [d+3], which adds [on_order =
    order_quantity] to the stock and resets [on_order] to 0.  [s] is the
    state at the start of day [d], and [d0], [d1], [d2] are the demands of
    days [d], [d+1], [d+2]. *)
Theorem order_arrives_three_days_later
    (reorder_point order_quantity : Q) (s : state) (d0 d1 d2 : Z) :
  (0 < order_quantity)%Q ->
  places_order reorder_point (fulfil d0 (delivery_check s)) = true ->
  let s1 := day reorder_point order_quantity 3 d0 s in
  let s2 := day reorder_point order_quantity 3 d1 s1 in
  let s3 := day reorder_point order_quantity 3 d2 s2 in
  (on_order s1 = order_quantity /\ days_until_delivery s1 = 3)
  /\ (delivers s1 = false /\ on_order s2 = order_quantity)
  /\ (delivers s2 = false /\ on_order s3 = order_quantity)
  /\ (delivers s3 = true
      /\ inventory (delivery_check s3) = (inventory s3 + order_quantity)%Q
      /\ on_order (delivery_check s3) = 0%Q).
Proof.
  intros Hq Hplace s1 s2 s3.
  assert (Hne : ~ order_quantity == 0) by (intros E; rewrite E in Hq; discriminate).
  destruct (day_places reorder_point order_quantity 3 d0 s Hplace) as [Ho1 Hd1].
  fold s1 in Ho1, Hd1.
  destruct (day_counts_down reorder_point order_quantity 3 d1 s1) as (Hn1 & Ho2 & Hd2);
    [now rewrite Ho1 | lia |]. fold s2 in Ho2, Hd2.
  destruct (day_counts_down reorder_point order_quantity 3 d2 s2) as (Hn2 & Ho3 & Hd3);
    [now rewrite Ho2, Ho1 | lia |]. fold s3 in Ho3, Hd3.
  destruct (delivery_check_delivers s3) as (Hy & Hi & Hz); [lia|].
  rewrite Ho3, Ho2, Ho1 in Hi.
  repeat split; try assumption; congruence.
Qed.

Lemma order_arrives_three_days_later_witness :
  let s1 := day 0 10 3 1 (initial_state 0) in
  let s2 := day 0 10 3 1 s1 in
  let s3 := day 0 10 3 1 s2 in
  (on_order s1 = 10%Q /\ days_until_delivery s1 = 3)
  /\ (delivers s1 = false /\ on_order s2 = 10%Q)
  /\ (delivers s2 = false /\ on_order s3 = 10%Q)
  /\ (delivers s3 = true
      /\ inventory (delivery_check s3) = (inventory s3 + 10)%Q
      /\ on_order (delivery_check s3) = 0%Q).
Proof.
  apply (order_arrives_three_days_later 0 10 (initial_state 0) 1 1 1).
  - reflexivity.
  - reflexivity.
Defined.

(** ** Sign and integrality of the recorded stock *)

Lemma fulfil_nonneg d s : (0 <= inventory (fulfil d s))%Q.
Proof.
  unfold fulfil. destruct (Qle_bool (inject_Z d) (inventory s)) eqn:E; cbn.
  - apply Qle_bool_true_le in E. Lqa.lra.
  - apply Qle_refl.
Qed.

Lemma day_nonneg reorder_point order_quantity lead_time d s :
  (0 <= inventory (day reorder_point order_quantity lead_time d s))%Q.
Proof. rewrite inventory_day. apply fulfil_nonneg. Qed.

Lemma loop_nonneg G reorder_point order_quantity lead_time n :
  forall s g s' g',
    Forall (fun x => 0 <= x)%Q (inventory_levels s) ->
    loop G reorder_point order_quantity lead_time n s g = Some (s', g') ->
    Forall (fun x => 0 <= x)%Q (inventory_levels s').
Proof.
  induction n as [|n IH]; intros s g s' g' Hs H.
  - now injection H as <- _.
  - apply loop_S_Some in H. destruct H as (s1 & g1 & Hb & Hl).
    apply loop_body_Some in Hb. destruct Hb as (d & _ & ->).
    eapply IH; [|exact Hl]. rewrite levels_day. apply Forall_app. split; [exact Hs|].
    constructor; [apply day_nonneg | constructor].
Qed.

Lemma is_integer_inject_Z z : is_integer (inject_Z z).
Proof. exists z. reflexivity. Qed.

Lemma is_integer_plus x y : is_integer x -> is_integer y -> is_integer (x + y).
Proof.
  intros [a Ha] [b Hb]. exists (a + b). rewrite inject_Z_plus, Ha, Hb. reflexivity.
Qed.

Lemma is_integer_minus x y : is_integer x -> is_integer y -> is_integer (x - y).
Proof.
  intros [a Ha] [b Hb]. exists (a - b).
  unfold Z.sub. rewrite inject_Z_plus, inject_Z_opp, Ha, Hb. reflexivity.
Qed.

Lemma not_integer_half (n : Z) : ~ is_integer ((2 * n + 1) # 2).
Proof. intros [z H]. unfold Qeq in H. cbn [Qnum Qden inject_Z] in H. lia. Qed.

(** Stock and order are both whole numbers. *)
Definition whole (s : state) : Prop :=
  is_integer (inventory s) /\ is_integer (on_order s).

Lemma whole_day reorder_point order_quantity lead_time d s :
  is_integer order_quantity -> whole s ->
  whole (day reorder_point order_quantity lead_time d s).
Proof.
  intros Hq [Hi Ho].
  assert (H1 : whole (delivery_check s)).
  { unfold delivery_check. destruct (_ =? 1); split; cbn; auto.
    - now apply is_integer_plus.
    - apply (is_integer_inject_Z 0). }
  assert (H2 : whole (fulfil d (delivery_check s))).
  { destruct H1 as [Hi1 Ho1]. unfold fulfil.
    destruct (Qle_bool _ _); split; cbn; auto.
    - apply is_integer_minus; [exact Hi1 | apply is_integer_inject_Z].
    - apply (is_integer_inject_Z 0). }
  destruct H2 as [Hi2 Ho2]. unfold day, record, reorder.
  destruct (places_order _ _); [split; cbn; auto|].
  destruct (0 <? _); split; cbn; auto.
Qed.

Lemma loop_whole G reorder_point order_quantity lead_time n :
  is_integer order_quantity ->
  forall s g s' g',
    whole s -> Forall is_integer (inventory_levels s) ->
    loop G reorder_point order_quantity lead_time n s g = Some (s', g') ->
    whole s' /\ Forall is_integer (inventory_levels s').
Proof.
  intros Hq. induction n as [|n IH]; intros s g s' g' Hw Hs H.
  - injection H as <- _. now split.
  - apply loop_S_Some in H. destruct H as (s1 & g1 & Hb & Hl).
    apply loop_body_Some in Hb. destruct Hb as (d & _ & ->).
    pose proof (whole_day reorder_point order_quantity lead_time d s Hq Hw) as Hw1.
    eapply IH; [exact Hw1 | | exact Hl].
    rewrite levels_day. apply Forall_app. split; [exact Hs|].
    constructor; [apply Hw1 | constructor].
Qed.

(** C5, as the claim states it, fails.  The order quantity 87.5 (the EOQ of
    an annual demand of 1225, an order cost of 25 and a holding cost of 8)
    is delivered on day 1 and the stock recorded that day is 127.5. *)
Lemma delivery_records_fractional_stock :
  result (run_simulation (Globals 50 10) 2 100 393 (175 # 2) 1) (Rng.const 0)
  = Some ([70%Q; 255 # 2], 0)
  /\ ~ is_integer (255 # 2).
Proof.
  split; [reflexivity | apply (not_integer_half 127)].
Qed.

(** C5, amended.  Every entry of the trajectory a run returns is
    non-negative, whatever the inputs; and every entry is an integer when
    [order_quantity] is one. *)
Theorem inventory_levels_nonnegative
    (G : globals) (days initial_stock : Z) (reorder_point order_quantity : Q)
    (lead_time : Z) (g g' : Rng.t) (levels : list Q) (count : Z) :
  run_simulation G days initial_stock reorder_point order_quantity lead_time g
    = Some ((levels, count), g') ->
  Forall (fun x => 0 <= x)%Q levels
  /\ (is_integer order_quantity -> Forall is_integer levels).
Proof.
  intros H. unfold run_simulation in H. apply bind_Some in H.
  destruct H as (s & g1 & Hloop & Hret). unfold ret in Hret.
  injection Hret as <- _ _. split.
  - eapply loop_nonneg; [|exact Hloop]. constructor.
  - intros Hq. eapply loop_whole; [exact Hq | | | exact Hloop].
    + split; [apply is_integer_inject_Z | apply (is_integer_inject_Z 0)].
    + constructor.
Qed.

Lemma inventory_levels_nonnegative_witness :
  Forall (fun x => 0 <= x)%Q [70%Q; 140%Q]
  /\ (is_integer 100 -> Forall is_integer [70%Q; 140%Q]).
Proof.
  eapply (inventory_levels_nonnegative (Globals 50 10) 2 100 393 100 1
            (Rng.const 0)).
  reflexivity.
Defined.

(** * Properties of the policy formulas *)

Section PolicyProperties.

Local Open Scope R_scope.

(** ** The normal distribution function and its inverse *)

Lemma half_mass_lub : is_lub gauss_areas half_mass.
Proof.
  unfold half_mass.
  destruct (completeness gauss_areas gauss_areas_bound gauss_areas_inhabited).
  assumption.
Qed.

Lemma gauss_area_lt_half_mass x : gauss_area x < half_mass.
Proof.
  destruct half_mass_lub as [Hub _].
  apply Rlt_le_trans with (gauss_area (x + 1)).
  - apply gauss_area_increasing. lra.
  - apply Hub. now exists (x + 1).
Qed.

Lemma half_mass_pos : 0 < half_mass.
Proof. rewrite <- gauss_area_0. apply gauss_area_lt_half_mass. Qed.

Lemma gauss_area_approaches m : m < half_mass -> exists x, m < gauss_area x.
Proof.
  intros Hm. destruct half_mass_lub as [_ Hleast].
  destruct (classic (exists x, m < gauss_area x)) as [H|H]; [exact H|].
  exfalso. assert (Hub : is_upper_bound gauss_areas m).
  { intros y [x ->]. apply Rnot_lt_le. intros Hlt. apply H. now exists x. }
  specialize (Hleast m Hub). lra.
Qed.

Lemma gauss_area_derivative x : derivable_pt_lim gauss_area x (gauss x).
Proof.
  assert (Hab : x - 1 <= x + 1) by lra.
  assert (C0 : forall t, x - 1 <= t <= x + 1 -> continuity_pt gauss t)
    by (intros t _; apply gauss_continuity).
  assert (HP : forall y, x - 1 <= y <= x + 1 ->
             primitive Hab (FTC_P1 Hab C0) y = gauss_area y - gauss_area (x - 1)).
  { intros y [Hy1 Hy2]. unfold primitive.
    destruct (Rle_dec (x - 1) y) as [r|]; [|lra].
    destruct (Rle_dec y (x + 1)) as [r0|]; [|lra].
    rewrite gauss_area_diff. apply RiemannInt_P5. }
  pose proof (RiemannInt_P28 Hab C0 (x := x)) as HD.
  assert (Hx : x - 1 <= x <= x + 1) by lra. specialize (HD Hx).
  intros eps Heps. destruct (HD eps Heps) as [delta Hdelta].
  assert (Hmin : 0 < Rmin delta 1).
  { apply Rmin_pos; [apply cond_pos | lra]. }
  exists (mkposreal _ Hmin). intros h Hh Hsmall. simpl in Hsmall.
  assert (Hh1 : Rabs h < 1) by (eapply Rlt_le_trans; [exact Hsmall | apply Rmin_r]).
  assert (Hhd : Rabs h < delta) by (eapply Rlt_le_trans; [exact Hsmall | apply Rmin_l]).
  specialize (Hdelta h Hh Hhd).
  rewrite !HP in Hdelta.
  - replace (gauss_area (x + h) - gauss_area x)
      with (gauss_area (x + h) - gauss_area (x - 1) - (gauss_area x - gauss_area (x - 1)))
      by ring.
    exact Hdelta.
  - lra.
  - unfold Rabs in Hh1. destruct (Rcase_abs h); lra.
Qed.

Lemma gauss_area_odd x : gauss_area (- x) = - gauss_area x.
Proof.
  set (K := fun t => gauss_area t + gauss_area (- t)).
  assert (HK : forall t, derivable_pt_lim K t 0).
  { intros t. unfold K.
    replace 0 with (gauss t + gauss (- t) * (- 1)) by (rewrite gauss_even; ring).
    apply (derivable_pt_lim_plus gauss_area (fun t => gauss_area (- t))).
    - apply gauss_area_derivative.
    - apply (derivable_pt_lim_comp (fun t => - t) gauss_area).
      + replace (-1) with (- 1) by ring.
        apply (derivable_pt_lim_opp id). apply derivable_pt_lim_id.
      + apply gauss_area_derivative. }
  assert (Hd : derivable K).
  { intros t. exists 0. apply HK. }
  assert (Hc : constant K).
  { apply (null_derivative_1 K Hd). intros t. apply derive_pt_eq_0, HK. }
  specialize (Hc x 0). unfold K in Hc.
  rewrite Ropp_0, gauss_area_0 in Hc. lra.
Qed.

Lemma gauss_area_continuity : continuity gauss_area.
Proof.
  apply derivable_continuous. intros x. exists (gauss x).
  apply gauss_area_derivative.
Qed.

Lemma norm_cdf_0 : norm_cdf 0 = 1 / 2.
Proof. unfold norm_cdf. rewrite gauss_area_0. unfold Rdiv. ring. Qed.

Lemma norm_cdf_increasing x y : x < y -> norm_cdf x < norm_cdf y.
Proof.
  intros H. unfold norm_cdf. pose proof half_mass_pos as Hm.
  pose proof (gauss_area_increasing x y H) as HG.
  apply Rplus_lt_compat_l. unfold Rdiv. apply Rmult_lt_compat_r; [|exact HG].
  apply Rinv_0_lt_compat. lra.
Qed.

Lemma norm_cdf_le x y : norm_cdf x <= norm_cdf y -> x <= y.
Proof.
  intros H. apply Rnot_lt_le. intros Hlt.
  pose proof (norm_cdf_increasing y x Hlt). lra.
Qed.

Lemma norm_cdf_lt x y : norm_cdf x < norm_cdf y -> x < y.
Proof.
  intros H. apply Rnot_le_lt. intros Hle. destruct Hle as [Hlt | ->].
  - pose proof (norm_cdf_increasing y x Hlt). lra.
  - lra.
Qed.

Lemma norm_cdf_injective x y : norm_cdf x = norm_cdf y -> x = y.
Proof.
  intros H. apply Rle_antisym; apply norm_cdf_le; lra.
Qed.

Lemma norm_cdf_symmetry x : norm_cdf (- x) = 1 - norm_cdf x.
Proof.
  unfold norm_cdf. rewrite gauss_area_odd. pose proof half_mass_pos. field. lra.
Qed.

Lemma norm_cdf_lt_1 x : norm_cdf x < 1.
Proof.
  unfold norm_cdf. pose proof half_mass_pos as Hm.
  pose proof (gauss_area_lt_half_mass x) as HG.
  assert (gauss_area x / (2 * half_mass) < 1 / 2); [|lra].
  apply Rmult_lt_reg_r with (2 * half_mass); [lra|].
  unfold Rdiv. rewrite Rmult_assoc, Rinv_l by lra. lra.
Qed.

Lemma norm_cdf_pos x : 0 < norm_cdf x.
Proof.
  pose proof (norm_cdf_lt_1 (- x)) as H. rewrite norm_cdf_symmetry in H. lra.
Qed.

Lemma norm_cdf_derivative x :
  derivable_pt_lim norm_cdf x (gauss x / (2 * half_mass)).
Proof.
  pose proof half_mass_pos as Hm.
  pose proof (derivable_pt_lim_plus (fct_cte (1 / 2))
                (mult_real_fct (/ (2 * half_mass)) gauss_area) x _ _
                (derivable_pt_lim_const _ _)
                (derivable_pt_lim_scal _ _ _ _ (gauss_area_derivative x))) as H.
  intros eps Heps. destruct (H eps Heps) as [d Hd]. exists d.
  intros h Hh Hs. specialize (Hd h Hh Hs).
  unfold plus_fct, fct_cte, mult_real_fct in Hd. unfold norm_cdf.
  eapply Rle_lt_trans; [right | exact Hd]. f_equal. field. lra.
Qed.

Lemma norm_cdf_continuity : continuity norm_cdf.
Proof.
  apply derivable_continuous. intros x. exists (gauss x / (2 * half_mass)).
  apply norm_cdf_derivative.
Qed.

Lemma norm_cdf_above q : q < 1 -> exists x, q < norm_cdf x.
Proof.
  intros Hq. pose proof half_mass_pos as Hm.
  destruct (gauss_area_approaches ((q - 1 / 2) * (2 * half_mass))) as [x Hx]; [nra|].
  exists x. unfold norm_cdf.
  assert (q - 1 / 2 < gauss_area x / (2 * half_mass)); [|lra].
  apply Rmult_lt_reg_r with (2 * half_mass); [lra|].
  unfold Rdiv. rewrite (Rmult_assoc (gauss_area x)), Rinv_l by lra. lra.
Qed.

Lemma norm_cdf_below q : 0 < q -> exists x, norm_cdf x < q.
Proof.
  intros Hq. destruct (norm_cdf_above (1 - q)) as [x Hx]; [lra|].
  exists (- x). rewrite norm_cdf_symmetry. lra.
Qed.

Lemma norm_cdf_onto p : 0 < p < 1 -> exists x, norm_cdf x = p.
Proof.
  intros [Hp0 Hp1].
  destruct (norm_cdf_below p Hp0) as [a Ha].
  destruct (norm_cdf_above p Hp1) as [b Hb].
  assert (Hab : a < b) by (apply norm_cdf_lt; lra).
  destruct (IVT (fun x => norm_cdf x - p) a b) as [z [_ Hz]]; try lra.
  - intros x. apply (continuity_pt_minus norm_cdf (fun _ => p)).
    + apply norm_cdf_continuity.
    + apply continuity_pt_const. intros u v. reflexivity.
  - exists z. lra.
Qed.

Lemma norm_cdf_ppf p : 0 < p < 1 -> norm_cdf (norm_ppf p) = p.
Proof.
  intros Hp. unfold norm_ppf.
  apply (epsilon_spec (inhabits 0) (fun x => norm_cdf x = p)).
  now apply norm_cdf_onto.
Qed.

Lemma norm_ppf_cdf x : norm_ppf (norm_cdf x) = x.
Proof.
  apply norm_cdf_injective, norm_cdf_ppf.
  split; [apply norm_cdf_pos | apply norm_cdf_lt_1].
Qed.

Lemma norm_ppf_increasing p q : 0 < p -> p < q -> q < 1 -> norm_ppf p < norm_ppf q.
Proof.
  intros Hp Hpq Hq. apply norm_cdf_lt. rewrite !norm_cdf_ppf; lra.
Qed.

Lemma norm_ppf_monotone p q : 0 < p -> p <= q -> q < 1 -> norm_ppf p <= norm_ppf q.
Proof.
  intros Hp [Hpq | ->] Hq; [left; now apply norm_ppf_increasing | right; reflexivity].
Qed.

Lemma norm_ppf_half : norm_ppf (1 / 2) = 0.
Proof. rewrite <- norm_cdf_0. apply norm_ppf_cdf. Qed.


Lemma norm_ppf_nonneg p : 1 / 2 <= p -> p < 1 -> 0 <= norm_ppf p.
Proof.
  intros H1 H2. rewrite <- norm_ppf_half. apply norm_ppf_monotone; lra.
Qed.

Lemma norm_ppf_neg p : 0 < p -> p < 1 / 2 -> norm_ppf p < 0.
Proof.
  intros H1 H2. rewrite <- norm_ppf_half. apply norm_ppf_increasing; lra.
Qed.

(** ** The economic order quantity *)

(** An annual demand of 1225, an order cost of 25 and a holding cost of 8
    give an order quantity of 87.5 units, not a whole number. *)
Lemma calculate_eoq_fractional : calculate_eoq 1225 25 8 = Q2R (175 # 2).
Proof.
  unfold calculate_eoq, Q2R. cbn [Qnum Qden].
  replace (2 * 1225 * 25 / 8) with ((175 / 2) * (175 / 2)) by field.
  rewrite sqrt_square by lra. reflexivity.
Qed.

(** ** Monotonicity of the reorder point *)

Lemma safety_factor_nonneg lead_time demand_std :
  0 <= demand_std -> 0 <= demand_std * sqrt lead_time.
Proof. intros H. apply Rmult_le_pos; [exact H | apply sqrt_pos]. Qed.

(** C9, as the claim states it, fails.  At a service level of 1/4 the
    quantile is negative, and raising the demand deviation from 0 to 10
    lowers the reorder point. *)
Lemma reorder_point_decreases_in_demand_std :
  0 < 1 / 4 < 1 /\ 0 <= 10
  /\ calculate_reorder_point 50 7 (1 / 4) 10
     < calculate_reorder_point 50 7 (1 / 4) 0.
Proof.
  split; [lra|]. split; [lra|].
  unfold calculate_reorder_point.
  assert (Hz : norm_ppf (1 / 4) < 0) by (apply norm_ppf_neg; lra).
  assert (Hs : 0 < sqrt 7) by (apply sqrt_lt_R0; lra).
  assert (Hn : norm_ppf (1 / 4) * 10 * sqrt 7 < 0).
  { replace (norm_ppf (1 / 4) * 10 * sqrt 7)
      with (- ((- norm_ppf (1 / 4) * 10) * sqrt 7)) by ring.
    apply Ropp_lt_gt_0_contravar. apply Rmult_lt_0_compat; lra. }
  lra.
Qed.

(** Below a service level of 1/2 the reorder point also falls as the lead
    time grows, once the safety stock outweighs the lead-time demand. *)
Lemma reorder_point_decreases_in_lead_time :
  calculate_reorder_point 0 1 (1 / 4) 1 < calculate_reorder_point 0 0 (1 / 4) 1.
Proof.
  unfold calculate_reorder_point. rewrite sqrt_0, sqrt_1.
  assert (Hz : norm_ppf (1 / 4) < 0) by (apply norm_ppf_neg; lra).
  lra.
Qed.

(** C9, amended.  For [lead_time >= 0]:
    - with [demand_std >= 0], the reorder point is non-decreasing in the
      service level over (0, 1);
    - at a service level in [1/2, 1), it is non-decreasing in the demand
      deviation;
    - at a service level in [1/2, 1), with [avg_daily >= 0] and
      [demand_std >= 0], it is non-decreasing in the lead time. *)
Theorem calculate_reorder_point_monotone :
  (forall avg_daily lead_time demand_std v1 v2 : R,
      0 <= lead_time -> 0 <= demand_std ->
      0 < v1 -> v1 <= v2 -> v2 < 1 ->
      calculate_reorder_point avg_daily lead_time v1 demand_std
      <= calculate_reorder_point avg_daily lead_time v2 demand_std)
  /\ (forall avg_daily lead_time service_level v1 v2 : R,
      0 <= lead_time -> 1 / 2 <= service_level -> service_level < 1 ->
      v1 <= v2 ->
      calculate_reorder_point avg_daily lead_time service_level v1
      <= calculate_reorder_point avg_daily lead_time service_level v2)
  /\ (forall avg_daily service_level demand_std v1 v2 : R,
      0 <= avg_daily -> 0 <= demand_std ->
      1 / 2 <= service_level -> service_level < 1 ->
      0 <= v1 -> v1 <= v2 ->
      calculate_reorder_point avg_daily v1 service_level demand_std
      <= calculate_reorder_point avg_daily v2 service_level demand_std).
Proof.
  unfold calculate_reorder_point. repeat split.
  - intros avg_daily lead_time demand_std v1 v2 HL Hs H1 H12 H2.
    pose proof (norm_ppf_monotone v1 v2 H1 H12 H2) as Hz.
    pose proof (safety_factor_nonneg lead_time demand_std Hs) as Hf.
    rewrite !Rmult_assoc. apply Rplus_le_compat_l.
    apply Rmult_le_compat_r; assumption.
  - intros avg_daily lead_time service_level v1 v2 HL Hlo Hhi H12.
    pose proof (norm_ppf_nonneg service_level Hlo Hhi) as Hz.
    pose proof (sqrt_pos lead_time) as Hq.
    apply Rplus_le_compat_l. apply Rmult_le_compat_r; [exact Hq|].
    apply Rmult_le_compat_l; assumption.
  - intros avg_daily service_level demand_std v1 v2 Ha Hs Hlo Hhi H1 H12.
    pose proof (norm_ppf_nonneg service_level Hlo Hhi) as Hz.
    assert (Hq : sqrt v1 <= sqrt v2) by (apply sqrt_le_1_alt; exact H12).
    apply Rplus_le_compat.
    + apply Rmult_le_compat_l; assumption.
    + apply Rmult_le_compat_l; [|exact Hq]. apply Rmult_le_pos; assumption.
Qed.

Lemma calculate_reorder_point_monotone_witness :
  calculate_reorder_point 50 7 (4 / 5) 10 <= calculate_reorder_point 50 7 (19 / 20) 10
  /\ calculate_reorder_point 50 7 (19 / 20) 5 <= calculate_reorder_point 50 7 (19 / 20) 10
  /\ calculate_reorder_point 50 3 (19 / 20) 10 <= calculate_reorder_point 50 7 (19 / 20) 10.
Proof.
  destruct calculate_reorder_point_monotone as (Hsl & Hstd & Hlead).
  split; [|split].
  - apply Hsl; lra.
  - apply Hstd; lra.
  - apply Hlead; lra.
Defined.

End PolicyProperties.

(** * Further properties of the engine *)

(** ** Definitions *)

(** The state after the days whose demands are [demands], in order. *)
Definition days_with (reorder_point order_quantity : Q) (lead_time : Z)
    (demands : list Z) (s : state) : state :=
  fold_left (fun s d => day reorder_point order_quantity lead_time d s)
    demands s.

(** A trajectory that starts at or below [bound] and never rises. *)
Fixpoint descends (bound : Q) (l : list Q) : Prop :=
  match l with
  | [] => True
  | x :: l' => (x <= bound)%Q /\ descends x l'
  end.

(** ** Runs as sequences of days *)

Lemma days_with_snoc reorder_point order_quantity lead_time demands d s :
  days_with reorder_point order_quantity lead_time (demands ++ [d]) s
  = day reorder_point order_quantity lead_time d
      (days_with reorder_point order_quantity lead_time demands s).
Proof. unfold days_with. now rewrite fold_left_app. Qed.

(** A run of [n] iterations is [n] days with demands of the range. *)
Lemma loop_days_with G reorder_point order_quantity lead_time n :
  forall s g s' g',
    loop G reorder_point order_quantity lead_time n s g = Some (s', g') ->
    exists demands,
      length demands = n
      /\ Forall (fun d => demand_low G <= d <= demand_high G) demands
      /\ s' = days_with reorder_point order_quantity lead_time demands s.
Proof.
  induction n as [|n IH]; intros s g s' g' H.
  - injection H as <- _. now exists [].
  - apply loop_S_Some in H. destruct H as (s1 & g1 & Hb & Hl).
    apply loop_body_Some in Hb. destruct Hb as (d & Hd & ->).
    destruct (IH _ _ _ _ Hl) as (ds & Hlen & Hall & ->).
    exists (d :: ds). repeat split.
    + simpl. now rewrite Hlen.
    + constructor; [|exact Hall]. eapply randint_range. exact Hd.
Qed.

(** A property of the state that every day of demand in the range keeps
    holds after every run. *)
Lemma loop_invariant G reorder_point order_quantity lead_time (P : state -> Prop) :
  (forall s d, demand_low G <= d <= demand_high G -> P s ->
               P (day reorder_point order_quantity lead_time d s)) ->
  forall n s g s' g',
    P s -> loop G reorder_point order_quantity lead_time n s g = Some (s', g') ->
    P s'.
Proof.
  intros Hday. induction n as [|n IH]; intros s g s' g' Hs H.
  - now injection H as <- _.
  - apply loop_S_Some in H. destruct H as (s1 & g1 & Hb & Hl).
    apply loop_body_Some in Hb. destruct Hb as (d & Hd & ->).
    eapply IH; [|exact Hl]. apply Hday; [|exact Hs].
    eapply randint_range. exact Hd.
Qed.

Lemma demand_low_pos G : 1 <= demand_low G.
Proof. unfold demand_low. lia. Qed.

(** ** Lead time, in general *)

(** X1.  With [lead_time >= 1] and a non-zero order quantity, an order
    placed by the reorder step of day [d] stays outstanding, with the
    countdown one lower each day, and is delivered by the delivery check of
    day [d + lead_time] and of no earlier day.  [s] is the state at the
    start of day [d], [d0] the demand of day [d], [later] the demands of
    the days after it, and the state reached is the start of day
    [d + 1 + length later]. *)
Theorem order_arrives_after_lead_time
    (reorder_point order_quantity : Q) (lead_time : Z) (s : state) (d0 : Z)
    (later : list Z) :
  1 <= lead_time ->
  ~ order_quantity == 0 ->
  places_order reorder_point (fulfil d0 (delivery_check s)) = true ->
  Z.of_nat (length later) < lead_time ->
  let s' := days_with reorder_point order_quantity lead_time later
              (day reorder_point order_quantity lead_time d0 s) in
  on_order s' = order_quantity
  /\ days_until_delivery s' = lead_time - Z.of_nat (length later)
  /\ (delivers s' = true <-> Z.of_nat (length later) = lead_time - 1)
  /\ (delivers s' = true ->
      inventory (delivery_check s') = (inventory s' + order_quantity)%Q
      /\ on_order (delivery_check s') = 0%Q).
Proof.
  intros HL Hq Hplace Hlen s'.
  assert (Hmain : on_order s' = order_quantity
                  /\ days_until_delivery s' = lead_time - Z.of_nat (length later)).
  { subst s'. revert Hlen. induction later as [|d later IH] using rev_ind; intros Hlen.
    - cbn [days_with fold_left length]. rewrite Z.sub_0_r.
      now apply day_places.
    - rewrite length_app in *. cbn [length] in *.
      rewrite days_with_snoc.
      destruct IH as [Ho Hd]; [lia|].
      destruct (day_counts_down reorder_point order_quantity lead_time d
                  (days_with reorder_point order_quantity lead_time later
                     (day reorder_point order_quantity lead_time d0 s)))
        as (_ & Ho' & Hd'); [now rewrite Ho | lia |].
      rewrite Ho', Hd', Ho, Hd. split; [reflexivity | lia]. }
  destruct Hmain as [Ho Hd]. split; [exact Ho|]. split; [exact Hd|].
  assert (Hiff : delivers s' = true <-> Z.of_nat (length later) = lead_time - 1).
  { unfold delivers. rewrite Z.eqb_eq. lia. }
  split; [exact Hiff|]. intros Hdel.
  destruct (delivery_check_delivers s') as (_ & Hi & Hz).
  - apply Hiff in Hdel. lia.
  - rewrite Ho in Hi. now split.
Qed.

Lemma order_arrives_after_lead_time_witness :
  let s' := days_with 0 10 7 [1; 1; 1; 1; 1; 1] (day 0 10 7 1 (initial_state 0)) in
  on_order s' = 10%Q
  /\ days_until_delivery s' = 7 - Z.of_nat (length [1; 1; 1; 1; 1; 1])
  /\ (delivers s' = true <-> Z.of_nat (length [1; 1; 1; 1; 1; 1]) = 7 - 1)
  /\ (delivers s' = true ->
      inventory (delivery_check s') = (inventory s' + 10)%Q
      /\ on_order (delivery_check s') = 0%Q).
Proof.
  apply (order_arrives_after_lead_time 0 10 7 (initial_state 0) 1 [1; 1; 1; 1; 1; 1]).
  - lia.
  - discriminate.
  - reflexivity.
  - simpl. lia.
Defined.

(** ** What is on order, and the countdown *)

Lemma inject_Z_nonneg (d : Z) : 0 <= d -> (0 <= inject_Z d)%Q.
Proof. intros H. unfold Qle. simpl. lia. Qed.

Section OrderBook.

Variable G : globals.
Variables reorder_point order_quantity : Q.
Variable lead_time : Z.
Hypothesis lead_time_nonneg : 0 <= lead_time.

(** Nothing or one whole order is outstanding, and the countdown is within
    [0 .. lead_time]. *)
Definition order_book (s : state) : Prop :=
  (on_order s = 0%Q \/ on_order s = order_quantity)
  /\ 0 <= days_until_delivery s <= lead_time.

Lemma order_book_day d s :
  order_book s -> order_book (day reorder_point order_quantity lead_time d s).
Proof.
  intros [Ho Hd]. unfold order_book, day, record, reorder.
  assert (H1 : order_book (delivery_check s)).
  { unfold order_book, delivery_check.
    destruct (days_until_delivery s =? 1); cbn; auto. }
  assert (H2 : order_book (fulfil d (delivery_check s))).
  { destruct H1 as [Ho1 Hd1]. unfold order_book, fulfil.
    destruct (Qle_bool _ _); cbn; auto. }
  destruct H2 as [Ho2 Hd2].
  destruct (places_order _ _); cbn; [split; [now right | lia]|].
  destruct (Z.ltb_spec 0 (days_until_delivery (fulfil d (delivery_check s))));
    cbn; split; auto; lia.
Qed.

End OrderBook.

(** X2.  In a run with [lead_time >= 0], at the start of every day
    [on_order] is either 0 or exactly [order_quantity] (orders are never
    added up or partly delivered), and the countdown is within
    [0 .. lead_time]. *)
Theorem on_order_is_zero_or_one_order
    (G : globals) (initial_stock : Z) (reorder_point order_quantity : Q)
    (lead_time : Z) (k : nat) (g gk : Rng.t) (s : state) :
  0 <= lead_time ->
  state_at G initial_stock reorder_point order_quantity lead_time k g
    = Some (s, gk) ->
  (on_order s = 0%Q \/ on_order s = order_quantity)
  /\ 0 <= days_until_delivery s <= lead_time.
Proof.
  intros HL H. unfold state_at in H.
  apply (loop_invariant G reorder_point order_quantity lead_time
           (order_book order_quantity lead_time)) in H.
  - exact H.
  - intros s0 d _. now apply order_book_day.
  - split; [now left | cbn; lia].
Qed.

Lemma on_order_is_zero_or_one_order_witness :
  (on_order (State 10 632 6 0 [70%Q; 40%Q; 10%Q]) = 0%Q
   \/ on_order (State 10 632 6 0 [70%Q; 40%Q; 10%Q]) = 632%Q)
  /\ 0 <= days_until_delivery (State 10 632 6 0 [70%Q; 40%Q; 10%Q]) <= 7.
Proof.
  apply (on_order_is_zero_or_one_order (Globals 50 10) 100 50 632 7 3
           (Rng.const 0) (Rng.mk (fun _ => 0) 3)).
  - lia.
  - reflexivity.
Defined.

(** ** An upper bound on the stock *)

Section StockBound.

Variable G : globals.
Variables reorder_point order_quantity : Q.
Variable lead_time : Z.
Variable B : Q.
Hypothesis B_nonneg : (0 <= B)%Q.
Hypothesis B_order_up_to : (reorder_point + order_quantity <= B)%Q.

(** The stock is at most [B]; while an order is outstanding it is an order
    of [order_quantity] and the stock is at or below the reorder point. *)
Definition below_bound (s : state) : Prop :=
  (inventory s <= B)%Q
  /\ (~ on_order s == 0 ->
      on_order s == order_quantity
      /\ (inventory s <= reorder_point)%Q /\ (0 <= reorder_point)%Q).

Lemma below_bound_delivery_check s :
  below_bound s -> below_bound (delivery_check s).
Proof.
  intros [Hi Ho]. unfold below_bound, delivery_check.
  destruct (days_until_delivery s =? 1); cbn; [|now split].
  split.
  - destruct (Qeq_dec (on_order s) 0) as [E|E].
    + rewrite E. Lqa.lra.
    + destruct (Ho E) as (Eq & Hr & _). rewrite Eq. Lqa.lra.
  - intros H. exfalso. apply H. reflexivity.
Qed.

Lemma below_bound_fulfil d s :
  0 <= d -> below_bound s -> below_bound (fulfil d s).
Proof.
  intros Hd [Hi Ho]. pose proof (inject_Z_nonneg d Hd) as Hq.
  unfold below_bound, fulfil.
  destruct (Qle_bool (inject_Z d) (inventory s)); cbn.
  - split; [Lqa.lra|]. intros H. destruct (Ho H) as (Eq & Hr & H0).
    repeat split; try assumption. Lqa.lra.
  - split; [exact B_nonneg|]. intros H. destruct (Ho H) as (Eq & Hr & H0).
    repeat split; assumption.
Qed.

Lemma below_bound_reorder s :
  (0 <= inventory s)%Q -> below_bound s ->
  below_bound (reorder reorder_point order_quantity lead_time s).
Proof.
  intros Hpos [Hi Ho]. unfold below_bound, reorder.
  destruct (places_order reorder_point s) eqn:Hp; cbn.
  - apply andb_prop in Hp. destruct Hp as [Hle _].
    apply Qle_bool_true_le in Hle. split; [exact Hi|]. intros _.
    split; [reflexivity | split; [exact Hle | Lqa.lra]].
  - destruct (0 <? days_until_delivery s); cbn; now split.
Qed.

Lemma below_bound_day d s :
  0 <= d -> below_bound s ->
  below_bound (day reorder_point order_quantity lead_time d s).
Proof.
  intros Hd H. unfold day.
  assert (H3 : below_bound (reorder reorder_point order_quantity lead_time
                              (fulfil d (delivery_check s)))).
  { apply below_bound_reorder; [apply fulfil_nonneg|].
    now apply below_bound_fulfil, below_bound_delivery_check. }
  destruct H3 as [Hi Ho]. unfold below_bound, record. cbn. now split.
Qed.

Lemma below_bound_loop n :
  forall s g s' g',
    below_bound s -> Forall (fun x => x <= B)%Q (inventory_levels s) ->
    loop G reorder_point order_quantity lead_time n s g = Some (s', g') ->
    Forall (fun x => x <= B)%Q (inventory_levels s').
Proof.
  intros s g s' g' Hs Hl H.
  apply (loop_invariant G reorder_point order_quantity lead_time
           (fun s => below_bound s /\ Forall (fun x => x <= B)%Q (inventory_levels s)))
    in H.
  - apply H.
  - intros s0 d Hd [Hb Hf].
    assert (Hb' : below_bound (day reorder_point order_quantity lead_time d s0)).
    { apply below_bound_day; [|exact Hb]. pose proof (demand_low_pos G). lia. }
    split; [exact Hb'|]. rewrite levels_day. apply Forall_app. split; [exact Hf|].
    constructor; [apply Hb' | constructor].
  - now split.
Qed.

End StockBound.

(** X3.  The recorded stock never exceeds the larger of the initial stock
    and [reorder_point + order_quantity]: for every [B >= 0] that is at
    least both, every entry of the trajectory is at most [B]. *)
Theorem stock_never_exceeds_order_up_to_level
    (G : globals) (days initial_stock : Z) (reorder_point order_quantity : Q)
    (lead_time : Z) (B : Q) (g g' : Rng.t) (levels : list Q) (count : Z) :
  (0 <= B)%Q ->
  (inject_Z initial_stock <= B)%Q ->
  (reorder_point + order_quantity <= B)%Q ->
  run_simulation G days initial_stock reorder_point order_quantity lead_time g
    = Some ((levels, count), g') ->
  Forall (fun x => x <= B)%Q levels.
Proof.
  intros HB Hinit Hup H. unfold run_simulation in H. apply bind_Some in H.
  destruct H as (s & g1 & Hloop & Hret). unfold ret in Hret.
  injection Hret as <- _ _.
  eapply (below_bound_loop G reorder_point order_quantity lead_time B HB Hup);
    [| |exact Hloop].
  - split; [exact Hinit|]. intros H. exfalso. apply H. reflexivity.
  - constructor.
Qed.

Lemma stock_never_exceeds_order_up_to_level_witness :
  Forall (fun x => x <= 200)%Q [70%Q; 140%Q; 110%Q].
Proof.
  eapply (stock_never_exceeds_order_up_to_level (Globals 50 10) 3 100 100 100 1
            200 (Rng.const 0)).
  - discriminate.
  - discriminate.
  - discriminate.
  - reflexivity.
Defined.

(** ** Runs without replenishment *)

Lemma last_cons_default (y : Q) l b : last (y :: l) b = last l y.
Proof.
  revert y b. induction l as [|q l IH]; intros y b; [reflexivity|].
  change (last (y :: q :: l) b) with (last (q :: l) b).
  now rewrite (IH q b), (IH q y).
Qed.

Lemma descends_snoc b l x :
  descends b l -> (x <= last l b)%Q -> descends b (l ++ [x]).
Proof.
  revert b. induction l as [|y l IH]; intros b Hd Hx.
  - cbn in *. now split.
  - destruct Hd as [Hy Hd]. cbn [app descends]. split; [exact Hy|].
    apply IH; [exact Hd|]. now rewrite <- (last_cons_default y l b).
Qed.

Section NoReplenishment.

Variable G : globals.
Variables reorder_point order_quantity : Q.
Variable lead_time : Z.
Hypothesis no_replenishment : lead_time <= 0 \/ order_quantity == 0.

(** Either the countdown can never reach 1, or what is on order is worth
    nothing. *)
Definition starved (s : state) : Prop :=
  (lead_time <= 0 /\ days_until_delivery s <= 0)
  \/ (order_quantity == 0 /\ on_order s == 0).

Lemma starved_delivery_check s :
  starved s ->
  starved (delivery_check s) /\ inventory (delivery_check s) == inventory s.
Proof.
  intros H. unfold starved, delivery_check.
  destruct (Z.eqb_spec (days_until_delivery s) 1) as [E|E]; cbn.
  - destruct H as [[_ Hd] | [Hq Ho]]; [lia|]. split.
    + right. split; [exact Hq | reflexivity].
    + rewrite Ho. Lqa.lra.
  - split; [exact H | reflexivity].
Qed.

Lemma starved_day d s :
  0 <= d -> starved s -> (0 <= inventory s)%Q ->
  starved (day reorder_point order_quantity lead_time d s)
  /\ (inventory (day reorder_point order_quantity lead_time d s) <= inventory s)%Q.
Proof.
  intros Hd Hs Hpos. pose proof (inject_Z_nonneg d Hd) as Hq.
  destruct (starved_delivery_check s Hs) as [H1 E1].
  split.
  - unfold day, record, reorder.
    assert (H2 : starved (fulfil d (delivery_check s))).
    { unfold starved, fulfil in *. destruct (Qle_bool _ _); cbn; exact H1. }
    destruct (places_order _ _); cbn.
    + destruct no_replenishment as [HL | HQ]; unfold starved; cbn.
      * left. split; [exact HL | exact HL].
      * right. split; [exact HQ | exact HQ].
    + destruct (Z.ltb_spec 0 (days_until_delivery (fulfil d (delivery_check s))));
        [|exact H2].
      unfold starved in *; cbn. destruct H2 as [[HL Hdd] | H2]; [lia | now right].
  - rewrite inventory_day. unfold fulfil.
    destruct (Qle_bool _ _); cbn; rewrite ?E1; Lqa.lra.
Qed.

Lemma starved_loop b n :
  forall s g s' g',
    starved s -> (0 <= inventory s)%Q ->
    descends b (inventory_levels s) -> last (inventory_levels s) b = inventory s ->
    loop G reorder_point order_quantity lead_time n s g = Some (s', g') ->
    descends b (inventory_levels s').
Proof.
  intros s g s' g' Hs Hpos Hd Hlast H.
  apply (loop_invariant G reorder_point order_quantity lead_time
           (fun s => starved s /\ (0 <= inventory s)%Q
                     /\ descends b (inventory_levels s)
                     /\ last (inventory_levels s) b = inventory s)) in H.
  - apply H.
  - intros s0 d Hrange (Hs0 & Hp0 & Hd0 & Hl0).
    assert (Hdpos : 0 <= d) by (pose proof (demand_low_pos G); lia).
    destruct (starved_day d s0 Hdpos Hs0 Hp0) as [Hs1 Hle].
    split; [exact Hs1|]. split; [apply day_nonneg|].
    rewrite levels_day. split.
    + apply descends_snoc; [exact Hd0 | now rewrite Hl0].
    + apply last_last.
  - now repeat split.
Qed.

End NoReplenishment.

(** X4.  When no replenishment can arrive, because [lead_time <= 0] (the
    countdown never equals 1) or because the order quantity is 0, and the
    initial stock is not negative, the trajectory never rises: the first
    entry is at most the initial stock and each entry is at most the one
    before it. *)
Theorem trajectory_descends_without_replenishment
    (G : globals) (days initial_stock : Z) (reorder_point order_quantity : Q)
    (lead_time : Z) (g g' : Rng.t) (levels : list Q) (count : Z) :
  lead_time <= 0 \/ order_quantity == 0 ->
  0 <= initial_stock ->
  run_simulation G days initial_stock reorder_point order_quantity lead_time g
    = Some ((levels, count), g') ->
  descends (inject_Z initial_stock) levels.
Proof.
  intros Hno Hinit H. unfold run_simulation in H. apply bind_Some in H.
  destruct H as (s & g1 & Hloop & Hret). unfold ret in Hret.
  injection Hret as <- _ _.
  eapply (starved_loop G reorder_point order_quantity lead_time Hno);
    [| | | |exact Hloop].
  - destruct Hno as [HL | HQ]; [left | right]; cbn; split;
      try assumption; try lia; reflexivity.
  - now apply inject_Z_nonneg.
  - exact I.
  - reflexivity.
Qed.

Lemma trajectory_descends_without_replenishment_witness :
  descends (inject_Z 100) [70%Q; 40%Q; 10%Q; 0%Q; 0%Q].
Proof.
  eapply (trajectory_descends_without_replenishment (Globals 50 10) 5 100 393 632 0
            (Rng.const 0)).
  - left. lia.
  - lia.
  - reflexivity.
Defined.

(** ** Enough stock for the whole horizon *)

Lemma loop_no_stockout G reorder_point order_quantity lead_time :
  (0 <= order_quantity)%Q ->
  forall n s g s' g',
    (0 <= on_order s)%Q ->
    (inject_Z (Z.of_nat n * demand_high G) <= inventory s)%Q ->
    loop G reorder_point order_quantity lead_time n s g = Some (s', g') ->
    stockouts s' = stockouts s.
Proof.
  intros Hq. induction n as [|n IH]; intros s g s' g' Ho Hinv H.
  - now injection H as <- _.
  - apply loop_S_Some in H. destruct H as (s1 & g1 & Hb & Hl).
    apply loop_body_Some in Hb. destruct Hb as (d & Hd & ->).
    apply randint_range in Hd. pose proof (demand_low_pos G) as Hlow.
    (* the delivery check can only add to the stock *)
    assert (H1 : (inventory s <= inventory (delivery_check s))%Q
                 /\ (0 <= on_order (delivery_check s))%Q).
    { unfold delivery_check. destruct (_ =? 1); cbn; split; Lqa.lra. }
    destruct H1 as [Hi1 Ho1].
    (* the demand is covered *)
    assert (Hd1 : (inject_Z d <= inject_Z (Z.of_nat (S n) * demand_high G))%Q).
    { rewrite <- Zle_Qle. nia. }
    assert (Hd2 : (inject_Z (Z.of_nat n * demand_high G) + inject_Z d
                   <= inject_Z (Z.of_nat (S n) * demand_high G))%Q).
    { rewrite <- inject_Z_plus, <- Zle_Qle. nia. }
    assert (Hcover : Qle_bool (inject_Z d) (inventory (delivery_check s)) = true).
    { apply Qle_bool_iff. Lqa.lra. }
    assert (H2 : fulfil d (delivery_check s)
                 = State (inventory (delivery_check s) - inject_Z d)
                     (on_order (delivery_check s))
                     (days_until_delivery (delivery_check s))
                     (stockouts (delivery_check s))
                     (inventory_levels (delivery_check s))).
    { unfold fulfil. now rewrite Hcover. }
    assert (Ho' : (0 <= on_order (day reorder_point order_quantity lead_time d s))%Q).
    { unfold day, record, reorder. rewrite H2.
      destruct (places_order _ _); cbn; [exact Hq|].
      destruct (0 <? _); cbn; exact Ho1. }
    assert (Hi' : (inject_Z (Z.of_nat n * demand_high G)
                   <= inventory (day reorder_point order_quantity lead_time d s))%Q).
    { rewrite inventory_day, H2. cbn. Lqa.lra. }
    rewrite (IH _ _ _ _ Ho' Hi' Hl).
    rewrite stockouts_day, H2. cbn. apply stockouts_delivery_check.
Qed.

(** X5.  If the initial stock covers the largest possible demand,
    [avg_daily_demand + 2*demand_std], on each of the [days] days, and the
    order quantity is not negative, a run records no stockout. *)
Theorem no_stockout_when_stock_covers_horizon
    (G : globals) (days initial_stock : Z) (reorder_point order_quantity : Q)
    (lead_time : Z) (g g' : Rng.t) (levels : list Q) (count : Z) :
  (0 <= order_quantity)%Q ->
  0 <= days ->
  days * (avg_daily_demand G + 2 * demand_std G) <= initial_stock ->
  run_simulation G days initial_stock reorder_point order_quantity lead_time g
    = Some ((levels, count), g') ->
  count = 0.
Proof.
  intros Hq Hdays Hcover H. unfold run_simulation in H. apply bind_Some in H.
  destruct H as (s & g1 & Hloop & Hret). unfold ret in Hret.
  injection Hret as _ <- _.
  apply (loop_no_stockout G reorder_point order_quantity lead_time Hq) in Hloop.
  - exact Hloop.
  - cbn. Lqa.lra.
  - cbn [initial_state inventory]. rewrite <- Zle_Qle, Z2Nat.id by exact Hdays.
    exact Hcover.
Qed.

Lemma no_stockout_when_stock_covers_horizon_witness : 0 = 0.
Proof.
  eapply (no_stockout_when_stock_covers_horizon (Globals 50 10) 3 210 50 100 2
            (Rng.const 69)).
  - discriminate.
  - lia.
  - simpl. lia.
  - reflexivity.
Defined.

(** ** A demand without spread *)

Lemma randint_point a g : Rng.randint a a g = Some (a, Rng.advance g).
Proof.
  rewrite randint_Some by lia. rewrite Z.sub_diag, Z.add_0_l, Z.mod_1_r, Z.add_0_r.
  reflexivity.
Qed.

Lemma loop_fixed_demand G reorder_point order_quantity lead_time :
  demand_std G = 0 -> 1 <= avg_daily_demand G ->
  forall n s g, exists g',
    loop G reorder_point order_quantity lead_time n s g
    = Some (days_with reorder_point order_quantity lead_time
              (repeat (avg_daily_demand G) n) s, g').
Proof.
  intros Hstd Havg.
  assert (Hdraw : forall g, draw_demand G g = Some (avg_daily_demand G, Rng.advance g)).
  { intros g. unfold draw_demand, demand_low, demand_high. rewrite Hstd.
    replace (Z.max 1 (avg_daily_demand G - 2 * 0)) with (avg_daily_demand G) by lia.
    replace (avg_daily_demand G + 2 * 0) with (avg_daily_demand G) by lia.
    apply randint_point. }
  induction n as [|n IH]; intros s g.
  - now exists g.
  - cbn [loop repeat]. unfold bind at 1. rewrite loop_body_day.
    unfold bind, ret. rewrite Hdraw.
    destruct (IH (day reorder_point order_quantity lead_time (avg_daily_demand G) s)
                (Rng.advance g)) as (g' & ->).
    now exists g'.
Qed.

(** X6.  With [demand_std = 0] and [avg_daily_demand >= 1] every draw is
    [avg_daily_demand]: the run returns, and its trajectory and stockout
    count are those of [days] days of that demand, whatever the random
    source. *)
Theorem run_simulation_without_spread
    (G : globals) (days initial_stock : Z) (reorder_point order_quantity : Q)
    (lead_time : Z) (g : Rng.t) :
  demand_std G = 0 ->
  1 <= avg_daily_demand G ->
  result
    (run_simulation G days initial_stock reorder_point order_quantity lead_time)
    g
  = let s := days_with reorder_point order_quantity lead_time
               (repeat (avg_daily_demand G) (Z.to_nat days))
               (initial_state initial_stock) in
    Some (inventory_levels s, stockouts s).
Proof.
  intros Hstd Havg. unfold result, run_simulation, bind.
  destruct (loop_fixed_demand G reorder_point order_quantity lead_time Hstd Havg
              (Z.to_nat days) (initial_state initial_stock) g) as (g' & ->).
  reflexivity.
Qed.

Lemma run_simulation_without_spread_witness :
  result (run_simulation (Globals 50 0) 4 120 60 100 1) (Rng.const 31)
  = let s := days_with 60 100 1 (repeat (avg_daily_demand (Globals 50 0)) (Z.to_nat 4))
               (initial_state 120) in
    Some (inventory_levels s, stockouts s).
Proof.
  apply (run_simulation_without_spread (Globals 50 0) 4 120 60 100 1 (Rng.const 31)).
  - reflexivity.
  - simpl. lia.
Defined.

(** ** Longer horizons *)

(** X7.  Under the same random source a run over a longer horizon repeats
    the shorter run and goes on from there: the shorter run returns too, its
    trajectory is the first [days1] entries of the longer one, and its
    stockout count is not larger. *)
Theorem longer_horizon_extends_run
    (G : globals) (days1 days2 initial_stock : Z)
    (reorder_point order_quantity : Q) (lead_time : Z) (g g2 : Rng.t)
    (levels2 : list Q) (count2 : Z) :
  0 <= days1 <= days2 ->
  run_simulation G days2 initial_stock reorder_point order_quantity lead_time g
    = Some ((levels2, count2), g2) ->
  exists levels1 count1 g1,
    run_simulation G days1 initial_stock reorder_point order_quantity lead_time g
      = Some ((levels1, count1), g1)
    /\ levels1 = firstn (Z.to_nat days1) levels2
    /\ count1 <= count2.
Proof.
  intros Hdays H. unfold run_simulation in H. apply bind_Some in H.
  destruct H as (s2 & g2' & Hloop & Hret). unfold ret in Hret.
  injection Hret as <- <- _.
  replace (Z.to_nat days2)
    with (Z.to_nat days1 + (Z.to_nat days2 - Z.to_nat days1))%nat in Hloop by lia.
  apply loop_prefix in Hloop. destruct Hloop as (s1 & g1 & H1 & H12).
  exists (inventory_levels s1), (stockouts s1), g1. split; [|split].
  - unfold run_simulation, bind. rewrite H1. reflexivity.
  - destruct (loop_levels_prefix _ _ _ _ _ _ _ _ _ H12) as (tail & ->).
    pose proof (loop_length _ _ _ _ _ _ _ _ _ H1) as Hlen. cbn in Hlen.
    rewrite <- Hlen, firstn_app, Nat.sub_diag, firstn_all. cbn.
    now rewrite app_nil_r.
  - apply (loop_stockouts _ _ _ _ _ _ _ _ _ H12).
Qed.

Lemma longer_horizon_extends_run_witness :
  exists levels1 count1 g1,
    run_simulation (Globals 50 10) 2 100 20 0 7 (Rng.const 0)
      = Some ((levels1, count1), g1)
    /\ levels1 = firstn (Z.to_nat 2) [70%Q; 40%Q; 10%Q; 0%Q]
    /\ count1 <= 1.
Proof.
  eapply (longer_horizon_extends_run (Globals 50 10) 2 4 100 20 0 7 (Rng.const 0)).
  - lia.
  - reflexivity.
Defined.

(** ** The figures reported after a run

    After the run the script reports, from the returned trajectory and
    count: [stockouts/simulation_days*100], the share of stockout days;
    [(1 - stockouts/simulation_days)*100], the service level achieved;
    [np.mean(inventory_levels)] and [min(inventory_levels)].  The division
    raises on a horizon of 0, [min] raises on an empty list, and the mean
    of an empty list is not a number. *)



(** The smallest of [m] and the entries of [l], the earliest of equal ones. *)
Fixpoint min_from (m : Q) (l : list Q) : Q :=
  match l with
  | [] => m
  | x :: l' => min_from (if Qlt_le_dec x m then x else m) l'
  end.

Definition min_inventory (inventory_levels : list Q) : option Q :=
  match inventory_levels with
  | [] => None
  | x :: l => Some (min_from x l)
  end.

Definition total (l : list Q) : Q := fold_right Qplus 0%Q l.

Definition avg_inventory (inventory_levels : list Q) : option Q :=
  match inventory_levels with
  | [] => None
  | _ :: _ =>
      Some (total inventory_levels
            / inject_Z (Z.of_nat (length inventory_levels)))%Q
  end.

Lemma min_from_le_start m l : (min_from m l <= m)%Q.
Proof.
  revert m. induction l as [|x l IH]; intros m; [apply Qle_refl|].
  cbn [min_from]. eapply Qle_trans; [apply IH|].
  destruct (Qlt_le_dec x m); [now apply Qlt_le_weak | apply Qle_refl].
Qed.

Lemma min_from_le_In m l x : In x l -> (min_from m l <= x)%Q.
Proof.
  revert m. induction l as [|y l IH]; intros m Hin; [contradiction|].
  cbn [min_from]. destruct Hin as [-> | Hin]; [|now apply IH].
  eapply Qle_trans; [apply min_from_le_start|].
  destruct (Qlt_le_dec x m); [apply Qle_refl | assumption].
Qed.

Lemma min_from_In m l : In (min_from m l) (m :: l).
Proof.
  revert m. induction l as [|x l IH]; intros m; [now left|].
  cbn [min_from]. destruct (IH (if Qlt_le_dec x m then x else m)) as [E | Hin].
  - rewrite <- E. destruct (Qlt_le_dec x m); [right; now left | now left].
  - right. now right.
Qed.

Lemma total_ge m l :
  Forall (fun x => m <= x)%Q l ->
  (inject_Z (Z.of_nat (length l)) * m <= total l)%Q.
Proof.
  induction 1 as [|x l Hx Hl IH].
  - cbn [length total fold_right]. change (inject_Z (Z.of_nat 0)) with 0%Q.
    Lqa.lra.
  - cbn [length total fold_right]. fold (total l).
    rewrite Nat2Z.inj_succ. unfold Z.succ. rewrite inject_Z_plus.
    change (inject_Z 1) with 1%Q. Lqa.lra.
Qed.

(** Once a stockout is counted, a 0 is in the trajectory. *)
Lemma loop_stockout_recorded G reorder_point order_quantity lead_time n :
  forall s g s' g',
    (stockouts s = 0 \/ In 0%Q (inventory_levels s)) ->
    loop G reorder_point order_quantity lead_time n s g = Some (s', g') ->
    stockouts s' = 0 \/ In 0%Q (inventory_levels s').
Proof.
  intros s g s' g' Hs H.
  apply (loop_invariant G reorder_point order_quantity lead_time
           (fun s => stockouts s = 0 \/ In 0%Q (inventory_levels s))) in H;
    [exact H | | exact Hs].
  intros s0 d _ H0. cbv beta. rewrite levels_day.
  destruct (stockouts_fulfil d (delivery_check s0)) as [E | E];
    rewrite stockouts_delivery_check,
      <- (stockouts_day reorder_point order_quantity lead_time) in E.
  - destruct H0 as [H0 | H0]; [left; lia | right; apply in_or_app; now left].
  - right. apply in_or_app. right. left. now apply day_stockout.
Qed.

(** X8.  After a run that counted at least one stockout the reported
    minimum inventory level is 0. *)
Theorem min_inventory_zero_after_stockout
    (G : globals) (days initial_stock : Z) (reorder_point order_quantity : Q)
    (lead_time : Z) (g g' : Rng.t) (levels : list Q) (count : Z) :
  run_simulation G days initial_stock reorder_point order_quantity lead_time g
    = Some ((levels, count), g') ->
  1 <= count ->
  exists m, min_inventory levels = Some m /\ m == 0.
Proof.
  intros H Hcount. unfold run_simulation in H. apply bind_Some in H.
  destruct H as (s & g1 & Hloop & Hret). unfold ret in Hret.
  injection Hret as <- <- _.
  assert (Hpos : Forall (fun x => 0 <= x)%Q (inventory_levels s)).
  { eapply loop_nonneg; [|exact Hloop]. constructor. }
  assert (Hzero : In 0%Q (inventory_levels s)).
  { assert (H0 : stockouts (initial_state initial_stock) = 0
                 \/ In 0%Q (inventory_levels (initial_state initial_stock)))
      by now left.
    destruct (loop_stockout_recorded _ _ _ _ _ _ _ _ _ H0 Hloop);
      [lia | assumption]. }
  destruct (inventory_levels s) as [|x l]; [contradiction|].
  exists (min_from x l). split; [reflexivity|].
  apply Qle_antisym.
  - destruct Hzero as [-> | Hin]; [apply min_from_le_start | now apply min_from_le_In].
  - rewrite Forall_forall in Hpos. apply Hpos, min_from_In.
Qed.

Lemma min_inventory_zero_after_stockout_witness :
  exists m, min_inventory [70%Q; 40%Q; 10%Q; 0%Q] = Some m /\ m == 0.
Proof.
  eapply (min_inventory_zero_after_stockout (Globals 50 10) 4 100 20 0 7
            (Rng.const 0)).
  - reflexivity.
  - vm_compute. discriminate.
Defined.



(** X10.  After a run over at least one day the reported minimum and
    average inventory levels are defined, and [0 <= minimum <= average]. *)
Theorem reported_minimum_at_most_average
    (G : globals) (days initial_stock : Z) (reorder_point order_quantity : Q)
    (lead_time : Z) (g g' : Rng.t) (levels : list Q) (count : Z) :
  0 < days ->
  run_simulation G days initial_stock reorder_point order_quantity lead_time g
    = Some ((levels, count), g') ->
  exists m a,
    min_inventory levels = Some m /\ avg_inventory levels = Some a
    /\ (0 <= m)%Q /\ (m <= a)%Q.
Proof.
  intros Hdays H. unfold run_simulation in H. apply bind_Some in H.
  destruct H as (s & g1 & Hloop & Hret). unfold ret in Hret.
  injection Hret as <- _ _.
  assert (Hpos : Forall (fun x => 0 <= x)%Q (inventory_levels s)).
  { eapply loop_nonneg; [|exact Hloop]. constructor. }
  pose proof (loop_length _ _ _ _ _ _ _ _ _ Hloop) as Hlen. cbn in Hlen.
  destruct (inventory_levels s) as [|x l] eqn:El; [cbn in Hlen; lia|].
  exists (min_from x l), (total (x :: l) / inject_Z (Z.of_nat (length (x :: l))))%Q.
  split; [reflexivity|]. split; [reflexivity|]. split.
  - rewrite Forall_forall in Hpos. apply Hpos, min_from_In.
  - apply Qle_shift_div_l.
    + rewrite <- (Zlt_Qlt 0). cbn [length]. lia.
    + rewrite Qmult_comm. apply total_ge. apply Forall_forall. intros y Hy.
      destruct Hy as [<- | Hy]; [apply min_from_le_start | now apply min_from_le_In].
Qed.

Lemma reported_minimum_at_most_average_witness :
  exists m a,
    min_inventory [70%Q; 40%Q; 10%Q; 0%Q] = Some m
    /\ avg_inventory [70%Q; 40%Q; 10%Q; 0%Q] = Some a
    /\ (0 <= m)%Q /\ (m <= a)%Q.
Proof.
  eapply (reported_minimum_at_most_average (Globals 50 10) 4 100 20 0 7
            (Rng.const 0)).
  - lia.
  - reflexivity.
Defined.

(** * Further properties of the policy formulas *)

Section PolicyFurther.

Local Open Scope R_scope.

(** X11.  For non-negative demand and order cost and a positive holding
    cost, the order quantity does not fall when the demand or the order cost
    grows, and does not rise when the holding cost grows. *)
Theorem calculate_eoq_monotone :
  (forall d1 d2 order_cost holding_cost : R,
      0 <= order_cost -> 0 < holding_cost -> 0 <= d1 -> d1 <= d2 ->
      calculate_eoq d1 order_cost holding_cost
      <= calculate_eoq d2 order_cost holding_cost)
  /\ (forall demand c1 c2 holding_cost : R,
      0 <= demand -> 0 < holding_cost -> 0 <= c1 -> c1 <= c2 ->
      calculate_eoq demand c1 holding_cost
      <= calculate_eoq demand c2 holding_cost)
  /\ (forall demand order_cost h1 h2 : R,
      0 <= demand -> 0 <= order_cost -> 0 < h1 -> h1 <= h2 ->
      calculate_eoq demand order_cost h2
      <= calculate_eoq demand order_cost h1).
Proof.
  unfold calculate_eoq. repeat split.
  - intros d1 d2 c h Hc Hh H1 H12. apply sqrt_le_1_alt.
    apply Rmult_le_compat_r; [left; now apply Rinv_0_lt_compat | nra].
  - intros d c1 c2 h Hd Hh H1 H12. apply sqrt_le_1_alt.
    apply Rmult_le_compat_r; [left; now apply Rinv_0_lt_compat | nra].
  - intros d c h1 h2 Hd Hc H1 H12. apply sqrt_le_1_alt.
    apply Rmult_le_compat_l; [nra|].
    apply Rinv_le_contravar; assumption.
Qed.

Lemma calculate_eoq_monotone_witness :
  calculate_eoq 10000 100 5 <= calculate_eoq 20000 100 5
  /\ calculate_eoq 10000 100 5 <= calculate_eoq 10000 200 5
  /\ calculate_eoq 10000 100 10 <= calculate_eoq 10000 100 5.
Proof.
  destruct calculate_eoq_monotone as (Hd & Hc & Hh).
  split; [|split].
  - apply Hd; lra.
  - apply Hc; lra.
  - apply Hh; lra.
Defined.



(** X13.  With [lead_time >= 0] and [demand_std >= 0] the safety stock has
    the sign of [service_level - 1/2]: the reorder point is at least the
    lead-time demand [avg_daily * lead_time] for a service level in
    [1/2, 1), and at most the lead-time demand for one in (0, 1/2]. *)
Theorem reorder_point_against_lead_time_demand
    (avg_daily lead_time service_level demand_std : R) :
  0 <= lead_time -> 0 <= demand_std -> 0 < service_level < 1 ->
  (1 / 2 <= service_level ->
   avg_daily * lead_time
   <= calculate_reorder_point avg_daily lead_time service_level demand_std)
  /\ (service_level <= 1 / 2 ->
      calculate_reorder_point avg_daily lead_time service_level demand_std
      <= avg_daily * lead_time).
Proof.
  intros HL Hs [H0 H1]. unfold calculate_reorder_point.
  pose proof (safety_factor_nonneg lead_time demand_std Hs) as Hf.
  split; intros Hsl.
  - pose proof (norm_ppf_nonneg service_level Hsl H1) as Hz.
    rewrite Rmult_assoc.
    pose proof (Rmult_le_pos _ _ Hz Hf). lra.
  - assert (Hz : norm_ppf service_level <= 0).
    { rewrite <- norm_ppf_half. apply norm_ppf_monotone; lra. }
    rewrite Rmult_assoc.
    assert (0 <= - norm_ppf service_level * (demand_std * sqrt lead_time))
      by (apply Rmult_le_pos; lra).
    lra.
Qed.

Lemma reorder_point_against_lead_time_demand_witness :
  (1 / 2 <= 1 / 2 -> 50 * 7 <= calculate_reorder_point 50 7 (1 / 2) 10)
  /\ (1 / 2 <= 1 / 2 -> calculate_reorder_point 50 7 (1 / 2) 10 <= 50 * 7).
Proof. apply reorder_point_against_lead_time_demand; lra. Defined.



(** X15.  With a positive demand deviation and a positive lead time the
    reorder point rises strictly with the service level over (0, 1). *)
Theorem reorder_point_strictly_increasing_in_service_level
    (avg_daily lead_time demand_std v1 v2 : R) :
  0 < lead_time -> 0 < demand_std -> 0 < v1 -> v1 < v2 -> v2 < 1 ->
  calculate_reorder_point avg_daily lead_time v1 demand_std
  < calculate_reorder_point avg_daily lead_time v2 demand_std.
Proof.
  intros HL Hs H1 H12 H2. unfold calculate_reorder_point.
  pose proof (norm_ppf_increasing v1 v2 H1 H12 H2) as Hz.
  assert (Hf : 0 < demand_std * sqrt lead_time).
  { apply Rmult_lt_0_compat; [exact Hs | now apply sqrt_lt_R0]. }
  rewrite !Rmult_assoc. apply Rplus_lt_compat_l.
  now apply Rmult_lt_compat_r.
Qed.

Lemma reorder_point_strictly_increasing_in_service_level_witness :
  calculate_reorder_point 50 7 (4 / 5) 10 < calculate_reorder_point 50 7 (19 / 20) 10.
Proof. apply reorder_point_strictly_increasing_in_service_level; lra. Defined.

End PolicyFurther.
